(** * Meraki dashboard backend (meraki.py): model and verified properties

    The program is a Flask application with four helpers that issue one
    HTTP GET each against the Meraki REST API, and one aggregation
    endpoint, [get_meraki_data], that chains them and tallies the
    devices by model.

    Python values that flow through the program are the values produced
    by [response.json()], so one type, [json], serves as the type of
    Python values here ([JNull] is [None]).  Numbers are the integers
    (Python's unbounded [int]); floating-point numbers are outside the
    model.  A string is a sequence of characters, one [ascii] each.
    Objects are association lists whose first binding of a key is the
    binding of that key.

    Exceptions are explicit: a computation returns [Ok v] or [Raise e].
    The calls to the upstream API and the lines printed are recorded in
    a trace, in the order in which they happen.  An exception that
    escapes the endpoint stays a [Raise e]: what Flask makes of it is
    outside the model. *)

From Stdlib Require Import List ZArith String Ascii Bool Lia.
Import ListNotations.

#[local] Set Warnings "-register-all".

Local Open Scope string_scope.
Local Open Scope Z_scope.
Local Open Scope list_scope.

(** ** Python values *)

Inductive json : Type :=
| JNull
| JBool (b : bool)
| JNum (n : Z)
| JStr (s : string)
| JArr (items : list json)
| JObj (members : list (string * json)).

Inductive exn : Type :=
| KeyError
| IndexError
| TypeError
| AttributeError
| ValueError.

Inductive result (A : Type) : Type :=
| Ok (a : A)
| Raise (e : exn).

Arguments Ok {A} a.
Arguments Raise {A} e.

Module ResultMonad.

Definition bind {A B} (r : result A) (f : A -> result B) : result B :=
  match r with
  | Ok a => f a
  | Raise e => Raise e
  end.

End ResultMonad.

Declare Scope result_scope.
Delimit Scope result_scope with result.
Notation "x <- m ;; k" := (ResultMonad.bind m (fun x => k))
  (at level 61, m at next level, right associativity) : result_scope.

(** [bool(v)], as used by [if v] and [not v]. *)
Definition truthy (v : json) : bool :=
  match v with
  | JNull => false
  | JBool b => b
  | JNum n => negb (n =? 0)
  | JStr s => negb (String.eqb s "")
  | JArr items => match items with [] => false | _ :: _ => true end
  | JObj members => match members with [] => false | _ :: _ => true end
  end.

Fixpoint lookup (k : string) (members : list (string * json)) : option json :=
  match members with
  | [] => None
  | (k', v) :: rest => if String.eqb k k' then Some v else lookup k rest
  end.

(** Values that can be dictionary keys: lists and dicts are unhashable. *)
Definition hashable (v : json) : bool :=
  match v with
  | JArr _ | JObj _ => false
  | _ => true
  end.

(** A sequence index [i] on a sequence of length [len]: negative indices
    count from the end. *)
Definition seq_index (i : Z) (len : nat) : result nat :=
  if (0 <=? i) && (i <? Z.of_nat len) then Ok (Z.to_nat i)
  else if (i <? 0) && (- Z.of_nat len <=? i) then Ok (Z.to_nat (Z.of_nat len + i))
  else Raise IndexError.

Definition int_of_bool (b : bool) : Z := if b then 1 else 0.

(** An integer index: [bool] is a subclass of [int]. *)
Definition index_of (k : json) : option Z :=
  match k with
  | JNum i => Some i
  | JBool b => Some (int_of_bool b)
  | _ => None
  end.

(** [v[k]].  The keys of an object parsed from JSON are strings, so an
    integer, boolean or [None] key is never found. *)
Definition subscript (v k : json) : result json :=
  match v with
  | JArr items =>
      match index_of k with
      | Some i =>
          (n <- seq_index i (List.length items) ;;
           match nth_error items n with
           | Some x => Ok x
           | None => Raise IndexError
           end)%result
      | None => Raise TypeError
      end
  | JStr s =>
      match index_of k with
      | Some i =>
          (n <- seq_index i (String.length s) ;;
           match String.get n s with
           | Some c => Ok (JStr (String c ""))
           | None => Raise IndexError
           end)%result
      | None => Raise TypeError
      end
  | JObj members =>
      match k with
      | JStr key =>
          match lookup key members with
          | Some x => Ok x
          | None => Raise KeyError
          end
      | JArr _ | JObj _ => Raise TypeError
      | _ => Raise KeyError
      end
  | _ => Raise TypeError
  end.

(** [obj.get(key, default)]: only a dict has the method. *)
Definition get_method (obj : json) (key : string) (default : json) : result json :=
  match obj with
  | JObj members =>
      match lookup key members with
      | Some x => Ok x
      | None => Ok default
      end
  | _ => Raise AttributeError
  end.

Fixpoint chars (s : string) : list json :=
  match s with
  | EmptyString => []
  | String c rest => JStr (String c "") :: chars rest
  end.

(** The elements that [for x in v] visits. *)
Definition iterate (v : json) : result (list json) :=
  match v with
  | JArr items => Ok items
  | JObj members => Ok (map (fun kv => JStr (fst kv)) members)
  | JStr s => Ok (chars s)
  | _ => Raise TypeError
  end.

(** [len(v)]. *)
Definition len (v : json) : result Z :=
  match v with
  | JArr items => Ok (Z.of_nat (List.length items))
  | JObj members => Ok (Z.of_nat (List.length members))
  | JStr s => Ok (Z.of_nat (String.length s))
  | _ => Raise TypeError
  end.

(** [[f(x) for x in xs]], stopping at the first exception. *)
Fixpoint comprehension {A B} (f : A -> result B) (xs : list A) : result (list B) :=
  match xs with
  | [] => Ok []
  | x :: rest =>
      (y <- f x ;;
       ys <- comprehension f rest ;;
       Ok (y :: ys))%result
  end.

(** ** The tally dictionary [device_type_counts]

    A Python dict keeps its keys in insertion order; assigning to a key
    that is present replaces the value and keeps the key object that
    was inserted first.  Keys are compared with [==]: among the
    hashable values of this model, [True == 1] and [False == 0]. *)

Definition key_norm (k : json) : json :=
  match k with
  | JBool b => JNum (int_of_bool b)
  | _ => k
  end.

Definition key_eqb (a b : json) : bool :=
  match key_norm a, key_norm b with
  | JNull, JNull => true
  | JNum x, JNum y => x =? y
  | JStr s, JStr t => String.eqb s t
  | _, _ => false
  end.

Definition counts : Type := list (json * Z).

(** [d.get(k, default)] *)
Fixpoint counts_get (k : json) (d : counts) (default : Z) : Z :=
  match d with
  | [] => default
  | (k', c) :: rest => if key_eqb k k' then c else counts_get k rest default
  end.

(** [d[k] = c] *)
Fixpoint counts_set (k : json) (c : Z) (d : counts) : counts :=
  match d with
  | [] => [(k, c)]
  | (k', c') :: rest =>
      if key_eqb k k' then (k', c) :: rest else (k', c') :: counts_set k c rest
  end.

Definition keys (d : counts) : list json := map fst d.
Definition values (d : counts) : list Z := map snd d.

(** The loop of lines 119-121:
<<
    for device in devices:
        device_type = device.get('model', 'Unknown')
        device_type_counts[device_type] = device_type_counts.get(device_type, 0) + 1
>>
    Hashing an unhashable [device_type] raises [TypeError]. *)
Fixpoint count_device_types (devices : list json) (device_type_counts : counts)
  : result counts :=
  match devices with
  | [] => Ok device_type_counts
  | device :: rest =>
      (device_type <- get_method device "model" (JStr "Unknown") ;;
       if hashable device_type then
         count_device_types rest
           (counts_set device_type
              (counts_get device_type device_type_counts 0 + 1)
              device_type_counts)
       else Raise TypeError)%result
  end.

(** ** Formatted text

    An f-string interpolates [str(v)].  For a string [v] that is [v]
    itself; the text of any other value, and of an exception, is kept
    symbolic. *)

Inductive request_exception : Type :=
| TransportFailure (detail : string)
| HTTPError (status : Z)
| InvalidJSON.

Inductive piece : Type :=
| Lit (s : string)
| Str (v : json)
| Exc (e : request_exception).

Definition text : Type := list piece.

Definition fmt (v : json) : piece :=
  match v with
  | JStr s => Lit s
  | _ => Str v
  end.

Fixpoint render (t : text) : option string :=
  match t with
  | [] => Some ""
  | Lit s :: rest => option_map (String.append s) (render rest)
  | _ :: _ => None
  end.

(** The value of an f-string: one literal when every interpolated
    value is a string. *)
Definition fstring (t : text) : text :=
  match render t with
  | Some s => [Lit s]
  | None => t
  end.

(** ** The upstream API and the process environment *)

Record request : Type := {
  url : text;
  headers : list (string * string);
  params : list (string * Z)
}.

(** What [requests.get] does with a request: it raises a
    [RequestException] (connection error, timeout, ...), or it returns
    a response with a status code and a body; [body = None] stands for
    a body that is not valid JSON. *)
Inductive http_result : Type :=
| Failed (detail : string)
| Reply (status : Z) (body : option json).

(** [upstream] is the API as one request of the endpoint sees it; the
    four requests of the endpoint have four different URLs, so a
    function of the request is general enough.
    [json_errors_are_request_exceptions] tells whether the installed
    [requests] raises its own [JSONDecodeError], a [RequestException],
    from [response.json()] (2.27 and later), or a plain [ValueError]. *)
Record world : Type := {
  getenv : string -> option string;
  upstream : request -> http_result;
  json_errors_are_request_exceptions : bool
}.

Inductive event : Type :=
| Call (r : request)
| Printed (line : text).

(** ** Computations that call the API, print and may raise *)

Definition M (A : Type) : Type := (result A * list event)%type.

Module TraceMonad.

Definition ret {A} (a : A) : M A := (Ok a, []).

Definition bind {A B} (m : M A) (f : A -> M B) : M B :=
  match m with
  | (Ok a, t) => let (r, t') := f a in (r, t ++ t')
  | (Raise e, t) => (Raise e, t)
  end.

Definition lift {A} (r : result A) : M A := (r, []).

End TraceMonad.

Import TraceMonad.

Declare Scope trace_scope.
Delimit Scope trace_scope with trace.
Notation "x <- m ;; k" := (bind m (fun x => k))
  (at level 61, m at next level, right associativity) : trace_scope.

Definition outcome {A} (m : M A) : result A := fst m.
Definition trace {A} (m : M A) : list event := snd m.

(** The requests sent, in order. *)
Fixpoint calls (t : list event) : list request :=
  match t with
  | [] => []
  | Call r :: rest => r :: calls rest
  | Printed _ :: rest => calls rest
  end.

(** ** The response of the endpoint *)

Inductive field : Type :=
| Json (v : json)
| Text (t : text).

Definition body : Type := list (string * field).
Definition response : Type := (body * Z)%type.

(** A string built by an f-string, as a value of the response. *)
Definition str_field (t : text) : field :=
  match render t with
  | Some s => Json (JStr s)
  | None => Text t
  end.

Fixpoint field_of (name : string) (b : body) : option field :=
  match b with
  | [] => None
  | (k, v) :: rest => if String.eqb name k then Some v else field_of name rest
  end.

(** [jsonify(d)] alone answers with status 200. *)
Definition jsonify (d : body) : response := (d, 200).

Section Program.

Variable w : world.

(** *** Configuration, lines 15-26 *)

Definition startup : string * list event :=
  let MERAKI_API_KEY := getenv w "MERAKI_API_KEY" in
  if match MERAKI_API_KEY with
     | None => true
     | Some k => String.eqb k ""
     end
  then ("YOUR_MERAKI_API_KEY",
        [Printed [Lit "WARNING: MERAKI_API_KEY environment variable not set. Please set it to your Meraki API key."]])
  else (match MERAKI_API_KEY with Some k => k | None => "" end, []).

Definition MERAKI_API_KEY : string := fst startup.

Definition MERAKI_API_BASE_URL : string := "https://api.meraki.com/api/v1".

Definition HEADERS : list (string * string) :=
  [("X-Cisco-Meraki-API-Key", MERAKI_API_KEY);
   ("Content-Type", "application/json")].

(** *** Helper functions for Meraki API calls, lines 30-72 *)

(** [response.raise_for_status()]: an [HTTPError] for 4xx and 5xx. *)
Definition raise_for_status (status : Z) : option request_exception :=
  if (400 <=? status) && (status <? 600) then Some (HTTPError status) else None.

(** How the [try] block ends. *)
Inductive attempt : Type :=
| Returned (v : json)
| Caught (e : request_exception)
| Uncaught (e : exn).

Definition attempt_get (req : request) : attempt :=
  match upstream w req with
  | Failed detail => Caught (TransportFailure detail)
  | Reply status content =>
      match raise_for_status status with
      | Some e => Caught e
      | None =>
          match content with
          | Some v => Returned v
          | None =>
              if json_errors_are_request_exceptions w then Caught InvalidJSON
              else Uncaught ValueError
          end
      end
  end.

(** The [try]/[except] shared by the four helpers: [message] is the
    printed text up to the exception. *)
Definition guarded_get (req : request) (message : text) : M json :=
  match attempt_get req with
  | Returned v => (Ok v, [Call req])
  | Caught e => (Ok JNull, [Call req; Printed (fstring (message ++ [Exc e]))])
  | Uncaught e => (Raise e, [Call req])
  end.

Definition get_organizations : M json :=
  guarded_get
    {| url := fstring [Lit MERAKI_API_BASE_URL; Lit "/organizations"];
       headers := HEADERS;
       params := [] |}
    [Lit "Error fetching organizations: "].

Definition get_networks (organization_id : json) : M json :=
  guarded_get
    {| url := fstring [Lit MERAKI_API_BASE_URL; Lit "/organizations/";
                       fmt organization_id; Lit "/networks"];
       headers := HEADERS;
       params := [] |}
    [Lit "Error fetching networks for org "; fmt organization_id; Lit ": "].

Definition get_network_devices (network_id : json) : M json :=
  guarded_get
    {| url := fstring [Lit MERAKI_API_BASE_URL; Lit "/networks/";
                       fmt network_id; Lit "/devices"];
       headers := HEADERS;
       params := [] |}
    [Lit "Error fetching devices for network "; fmt network_id; Lit ": "].

Definition get_network_clients (network_id : json) (timespan : Z) : M json :=
  let params := [("timespan", timespan)] in
  guarded_get
    {| url := fstring [Lit MERAKI_API_BASE_URL; Lit "/networks/";
                       fmt network_id; Lit "/clients"];
       headers := HEADERS;
       params := params |}
    [Lit "Error fetching clients for network "; fmt network_id; Lit ": "].

(** *** The endpoint [/api/meraki-data], lines 82-134 *)

Definition get_meraki_data : M response :=
  (organizations <- get_organizations ;;
   if negb (truthy organizations) then
     ret ([("error", Json (JStr "Could not fetch organizations. Check API key and network connectivity."))], 500)
   else if negb (truthy organizations) then
     ret ([("error", Json (JStr "No Meraki organizations found."))], 404)
   else
   organization_id <- lift (o <- subscript organizations (JNum 0) ;;
                            subscript o (JStr "id"))%result ;;
   organization_name <- lift (o <- subscript organizations (JNum 0) ;;
                              subscript o (JStr "name"))%result ;;
   networks <- get_networks organization_id ;;
   if negb (truthy networks) then
     ret ([("error", str_field [Lit "No networks found for organization ";
                                fmt organization_name; Lit "."])], 404)
   else
   network_id <- lift (n <- subscript networks (JNum 0) ;;
                       subscript n (JStr "id"))%result ;;
   network_name <- lift (n <- subscript networks (JNum 0) ;;
                         subscript n (JStr "name"))%result ;;
   devices <- get_network_devices network_id ;;
   clients <- get_network_clients network_id 86400 ;;
   device_names <- lift (if truthy devices then
                           (ds <- iterate devices ;;
                            comprehension (fun device => get_method device "name" (JStr "N/A")) ds)%result
                         else Ok []) ;;
   device_statuses <- lift (if truthy devices then
                              (ds <- iterate devices ;;
                               comprehension (fun device => get_method device "status" (JStr "N/A")) ds)%result
                            else Ok []) ;;
   client_count <- lift (if truthy clients then len clients else Ok 0) ;;
   device_type_counts <- lift (if truthy devices then
                                 (ds <- iterate devices ;;
                                  count_device_types ds [])%result
                               else Ok []) ;;
   deviceCount <- lift (if truthy devices then len devices else Ok 0) ;;
   let dashboard_data :=
     [("organizationName", Json organization_name);
      ("networkName", Json network_name);
      ("deviceCount", Json (JNum deviceCount));
      ("clientCount", Json (JNum client_count));
      ("deviceTypes", Json (JArr (keys device_type_counts)));
      ("deviceTypeCounts", Json (JArr (map JNum (values device_type_counts))));
      ("devices", Json devices);
      ("clients", Json clients)] in
   ret (jsonify dashboard_data))%trace.

End Program.

(** ** A concrete upstream, for running the program *)

Module Demo.

Definition organization : json :=
  JObj [("id", JStr "549236"); ("name", JStr "DevNet Sandbox")].

Definition network : json :=
  JObj [("id", JStr "L_646829496481105433"); ("name", JStr "DNSMB1")].

Definition devices : list json :=
  [JObj [("model", JStr "MR33")];
   JObj [("model", JStr "MR33")];
   JObj [("model", JStr "MS220")]].

(** Five client records of unrelated shapes. *)
Definition clients : list json :=
  [JObj [("mac", JStr "00:11:22:33:44:55")]; JNull; JNum 7; JStr "x"; JArr []].

Definition route (orgs nets devs clis : http_result) (req : request)
  : http_result :=
  match render (url req) with
  | Some u =>
      if String.eqb u "https://api.meraki.com/api/v1/organizations" then orgs
      else if String.eqb u "https://api.meraki.com/api/v1/organizations/549236/networks" then nets
      else if String.eqb u "https://api.meraki.com/api/v1/networks/L_646829496481105433/devices" then devs
      else if String.eqb u "https://api.meraki.com/api/v1/networks/L_646829496481105433/clients" then clis
      else Reply 404 None
  | None => Reply 404 None
  end.

Definition site (orgs nets devs clis : http_result) : world :=
  {| getenv := fun _ => Some "6bec40cf957de430a6f1f2baa056b99a4fac9ea0";
     upstream := route orgs nets devs clis;
     json_errors_are_request_exceptions := true |}.

Definition ok (items : list json) : http_result := Reply 200 (Some (JArr items)).

Definition healthy : world :=
  site (ok [organization]) (ok [network]) (ok devices) (ok clients).

Definition organizations_down : world :=
  site (Failed "Connection timed out") (ok [network]) (ok devices) (ok clients).

Definition no_organizations : world :=
  site (ok []) (ok [network]) (ok devices) (ok clients).

Definition networks_down : world :=
  site (ok [organization]) (Reply 503 None) (ok devices) (ok clients).

Definition no_networks : world :=
  site (ok [organization]) (ok []) (ok devices) (ok clients).

Definition devices_down : world :=
  site (ok [organization]) (ok [network]) (Reply 503 None) (ok clients).

Definition unset_key : world :=
  {| getenv := fun _ => None;
     upstream := fun _ => Reply 401 None;
     json_errors_are_request_exceptions := true |}.

End Demo.

(** ** What the tally is meant to compute

    These definitions follow the words of the specification, not the
    loop: the distinct models in first-seen order, and for a model the
    number of devices that carry it. *)

Definition model_of (device : json) : result json :=
  get_method device "model" (JStr "Unknown").

Definition device_models (devices : list json) : result (list json) :=
  comprehension model_of devices.

(** Keeps the first occurrence of every key. *)
Fixpoint first_seen (ks : list json) : list json :=
  match ks with
  | [] => []
  | k :: rest => k :: filter (fun k' => negb (key_eqb k' k)) (first_seen rest)
  end.

Definition occurrences (k : json) (ks : list json) : Z :=
  Z.of_nat (List.length (filter (fun m => key_eqb m k) ks)).

Definition has_model (k : json) (device : json) : bool :=
  match model_of device with
  | Ok m => key_eqb m k
  | Raise _ => false
  end.

(** The number of devices whose model equals [k]. *)
Definition count_model (k : json) (devices : list json) : Z :=
  Z.of_nat (List.length (filter (has_model k) devices)).

Definition sum (l : list Z) : Z := fold_right Z.add 0 l.

(** The records of a fetched value: those of a list; a value that is
    not a list holds none. *)
Definition items_of (v : json) : list json :=
  match v with
  | JArr items => items
  | _ => []
  end.

(** The loop without its exceptions, on the models themselves. *)
Definition tally (ms : list json) (d : counts) : counts :=
  fold_left (fun d k => counts_set k (counts_get k d 0 + 1) d) ms d.

Fixpoint distinct (ks : list json) : bool :=
  match ks with
  | [] => true
  | k :: rest => negb (existsb (key_eqb k) rest) && distinct rest
  end.

(** ** When the endpoint answers with a snapshot

    [succeeds w b t]: in world [w] every step of [get_meraki_data] goes
    through, the body of the response is [b] and the trace is [t]. *)

Definition first_field (key : string) (v : json) : result json :=
  (o <- subscript v (JNum 0) ;; subscript o (JStr key))%result.

Definition device_fields (key : string) (devices : json) : result (list json) :=
  if truthy devices then
    (ds <- iterate devices ;;
     comprehension (fun device => get_method device key (JStr "N/A")) ds)%result
  else Ok [].

Definition dashboard
  (organization_name network_name devices clients : json)
  (deviceCount client_count : Z) (device_type_counts : counts) : body :=
  [("organizationName", Json organization_name);
   ("networkName", Json network_name);
   ("deviceCount", Json (JNum deviceCount));
   ("clientCount", Json (JNum client_count));
   ("deviceTypes", Json (JArr (keys device_type_counts)));
   ("deviceTypeCounts", Json (JArr (map JNum (values device_type_counts))));
   ("devices", Json devices);
   ("clients", Json clients)].

Inductive succeeds (w : world) : body -> list event -> Prop :=
| Snapshot
    (organizations organization_id organization_name : json)
    (networks network_id network_name devices clients : json)
    (device_names device_statuses : list json)
    (client_count deviceCount : Z) (device_type_counts : counts)
    (t1 t2 t3 t4 : list event) :
    get_organizations w = (Ok organizations, t1) ->
    truthy organizations = true ->
    first_field "id" organizations = Ok organization_id ->
    first_field "name" organizations = Ok organization_name ->
    get_networks w organization_id = (Ok networks, t2) ->
    truthy networks = true ->
    first_field "id" networks = Ok network_id ->
    first_field "name" networks = Ok network_name ->
    get_network_devices w network_id = (Ok devices, t3) ->
    get_network_clients w network_id 86400 = (Ok clients, t4) ->
    device_fields "name" devices = Ok device_names ->
    device_fields "status" devices = Ok device_statuses ->
    (if truthy clients then len clients else Ok 0) = Ok client_count ->
    (if truthy devices
     then (ds <- iterate devices ;; count_device_types ds [])%result
     else Ok []) = Ok device_type_counts ->
    (if truthy devices then len devices else Ok 0) = Ok deviceCount ->
    succeeds w
      (dashboard organization_name network_name devices clients
         deviceCount client_count device_type_counts)
      (t1 ++ t2 ++ t3 ++ t4).

(** [selects v id name]: [v] is a non-empty list whose first entry is a
    record with the fields [id] and [name], as the data model has
    organizations and networks. *)
Definition selects (v id name : json) : Prop :=
  exists members rest,
    v = JArr (JObj members :: rest) /\
    lookup "id" members = Some id /\
    lookup "name" members = Some name.

(** The four operations of the API client. *)
Inductive operation : Type :=
| FetchOrganizations
| FetchNetworks (organization_id : json)
| FetchDevices (network_id : json)
| FetchClients (network_id : json) (timespan : Z).

Definition perform (w : world) (op : operation) : M json :=
  match op with
  | FetchOrganizations => get_organizations w
  | FetchNetworks organization_id => get_networks w organization_id
  | FetchDevices network_id => get_network_devices w network_id
  | FetchClients network_id timespan => get_network_clients w network_id timespan
  end.

(** The request an operation sends. *)
Definition request_of (w : world) (op : operation) : request :=
  match op with
  | FetchOrganizations =>
      {| url := fstring [Lit MERAKI_API_BASE_URL; Lit "/organizations"];
         headers := HEADERS w; params := [] |}
  | FetchNetworks organization_id =>
      {| url := fstring [Lit MERAKI_API_BASE_URL; Lit "/organizations/";
                         fmt organization_id; Lit "/networks"];
         headers := HEADERS w; params := [] |}
  | FetchDevices network_id =>
      {| url := fstring [Lit MERAKI_API_BASE_URL; Lit "/networks/";
                         fmt network_id; Lit "/devices"];
         headers := HEADERS w; params := [] |}
  | FetchClients network_id timespan =>
      {| url := fstring [Lit MERAKI_API_BASE_URL; Lit "/networks/";
                         fmt network_id; Lit "/clients"];
         headers := HEADERS w; params := [("timespan", timespan)] |}
  end.

Definition could_not_fetch_organizations : response :=
  ([("error", Json (JStr "Could not fetch organizations. Check API key and network connectivity."))], 500).

Definition no_organizations_found : response :=
  ([("error", Json (JStr "No Meraki organizations found."))], 404).

Definition no_networks_found (organization_name : json) : response :=
  ([("error", str_field [Lit "No networks found for organization ";
                         fmt organization_name; Lit "."])], 404).

(** [needle] occurs in [s]. *)
Definition mentions (needle s : string) : bool :=
  match String.index 0 needle s with
  | Some _ => true
  | None => false
  end.

(** Every request of a computation satisfies [P]. *)
Definition sends {A} (P : request -> Prop) (m : M A) : Prop :=
  Forall P (calls (trace m)).

(** The body of the response, when there is one. *)
Definition body_of (m : M response) : body :=
  match outcome m with
  | Ok (b, _) => b
  | Raise _ => []
  end.

(** ** Vocabulary for the behaviour of the helpers and of failing runs *)

(** The lines printed, in order. *)
Fixpoint printed (t : list event) : list text :=
  match t with
  | [] => []
  | Call _ :: rest => printed rest
  | Printed line :: rest => line :: printed rest
  end.

(** The identifier an operation is about; the organizations fetch has
    none. *)
Definition identifier (op : operation) : option json :=
  match op with
  | FetchOrganizations => None
  | FetchNetworks organization_id => Some organization_id
  | FetchDevices network_id => Some network_id
  | FetchClients network_id _ => Some network_id
  end.

(** What an operation fetches. *)
Definition noun (op : operation) : string :=
  match op with
  | FetchOrganizations => "organizations"
  | FetchNetworks _ => "networks"
  | FetchDevices _ => "devices"
  | FetchClients _ _ => "clients"
  end.

Definition prefix_of {A} (l1 l2 : list A) : Prop :=
  exists rest, l2 = l1 ++ rest.

Definition is_record (v : json) : bool :=
  match v with
  | JObj _ => true
  | _ => false
  end.

(** The four requests of a complete run, in the order of the source. *)
Definition full_run (w : world) (organization_id network_id : json)
  : list request :=
  [request_of w FetchOrganizations;
   request_of w (FetchNetworks organization_id);
   request_of w (FetchDevices network_id);
   request_of w (FetchClients network_id 86400)].

(** What lines 109-134 compute from the two fetched values. *)
Definition summary (organization_name network_name devices clients : json)
  : result response :=
  (device_names <- device_fields "name" devices ;;
   device_statuses <- device_fields "status" devices ;;
   client_count <- (if truthy clients then len clients else Ok 0) ;;
   device_type_counts <- (if truthy devices
                          then (ds <- iterate devices ;; count_device_types ds [])
                          else Ok []) ;;
   deviceCount <- (if truthy devices then len devices else Ok 0) ;;
   Ok (dashboard organization_name network_name devices clients
         deviceCount client_count device_type_counts, 200))%result.

(** Upstreams that answer out of the ordinary. *)
Module Cases.

(** An organization record without its [id]. *)
Definition organization_without_id : world :=
  Demo.site (Demo.ok [JObj [("name", JStr "DevNet Sandbox")]])
    (Demo.ok [Demo.network]) (Demo.ok Demo.devices) (Demo.ok Demo.clients).

(** A 200 reply whose body is an object, not a list. *)
Definition organizations_object : world :=
  Demo.site (Reply 200 (Some (JObj [("errors", JArr [JStr "Invalid API key"])])))
    (Demo.ok [Demo.network]) (Demo.ok Demo.devices) (Demo.ok Demo.clients).

(** A network record without its [name]. *)
Definition network_without_name : world :=
  Demo.site (Demo.ok [Demo.organization])
    (Demo.ok [JObj [("id", JStr "L_646829496481105433")]])
    (Demo.ok Demo.devices) (Demo.ok Demo.clients).

(** A devices list with an entry that is a string. *)
Definition device_is_a_string : world :=
  Demo.site (Demo.ok [Demo.organization]) (Demo.ok [Demo.network])
    (Demo.ok [JObj [("model", JStr "MR33")]; JStr "MS220"])
    (Demo.ok Demo.clients).

(** A device whose model is a list. *)
Definition model_is_a_list : world :=
  Demo.site (Demo.ok [Demo.organization]) (Demo.ok [Demo.network])
    (Demo.ok [JObj [("model", JArr [JStr "MR33"])]])
    (Demo.ok Demo.clients).


(** An empty network: no devices, no clients. *)
Definition empty_network : world :=
  Demo.site (Demo.ok [Demo.organization]) (Demo.ok [Demo.network])
    (Demo.ok []) (Demo.ok []).


End Cases.

(** ** Equality of keys *)

Section KeyEquality.

Lemma key_eqb_sym (a b : json) : key_eqb a b = key_eqb b a.
Proof.
  unfold key_eqb.
  destruct (key_norm a), (key_norm b); try reflexivity.
  - apply Z.eqb_sym.
  - apply String.eqb_sym.
Qed.

Lemma key_eqb_norm (a b : json) :
  key_eqb a b = true -> key_norm a = key_norm b.
Proof.
  unfold key_eqb.
  destruct (key_norm a), (key_norm b); try discriminate; intros H.
  - reflexivity.
  - apply Z.eqb_eq in H. congruence.
  - apply String.eqb_eq in H. congruence.
Qed.

Lemma key_eqb_compat_l (a b c : json) :
  key_eqb a b = true -> key_eqb a c = key_eqb b c.
Proof.
  intros H. apply key_eqb_norm in H. unfold key_eqb. now rewrite H.
Qed.

Lemma key_eqb_compat_r (a b c : json) :
  key_eqb a b = true -> key_eqb c a = key_eqb c b.
Proof.
  intros H. rewrite !(key_eqb_sym c). now apply key_eqb_compat_l.
Qed.

Lemma key_eqb_refl (k : json) : hashable k = true -> key_eqb k k = true.
Proof.
  destruct k as [ | [] | n | s | | ]; simpl; try discriminate; intros _;
    unfold key_eqb; simpl; auto using Z.eqb_refl, String.eqb_refl.
Qed.

(** On strings, the models of the data model, it is equality of strings. *)
Lemma key_eqb_strings (s t : string) :
  key_eqb (JStr s) (JStr t) = true <-> s = t.
Proof. unfold key_eqb; simpl. apply String.eqb_eq. Qed.

End KeyEquality.

(** ** The tally dictionary *)

Section Tally.

Lemma counts_get_compat (k k' : json) (d : counts) (x : Z) :
  key_eqb k k' = true -> counts_get k d x = counts_get k' d x.
Proof.
  intros H. induction d as [ | [k0 c] d IH]; simpl; [reflexivity | ].
  rewrite (key_eqb_compat_l _ _ k0 H), IH. reflexivity.
Qed.

Lemma counts_get_set_same (k k' : json) (c x : Z) (d : counts) :
  key_eqb k' k = true -> counts_get k' (counts_set k c d) x = c.
Proof.
  intros H. induction d as [ | [k0 c0] d IH]; simpl.
  - now rewrite H.
  - destruct (key_eqb k k0) eqn:E; simpl;
      rewrite (key_eqb_compat_l _ _ k0 H), E; auto.
Qed.

Lemma counts_get_set_other (k k' : json) (c x : Z) (d : counts) :
  key_eqb k' k = false ->
  counts_get k' (counts_set k c d) x = counts_get k' d x.
Proof.
  intros H. induction d as [ | [k0 c0] d IH]; simpl.
  - now rewrite H.
  - destruct (key_eqb k k0) eqn:E; simpl.
    + rewrite <- (key_eqb_compat_r _ _ k' E), H. reflexivity.
    + now rewrite IH.
Qed.

Lemma keys_counts_set (k : json) (c : Z) (d : counts) :
  keys (counts_set k c d) =
  if existsb (key_eqb k) (keys d) then keys d else keys d ++ [k].
Proof.
  induction d as [ | [k0 c0] d IH]; simpl; [reflexivity | ].
  destruct (key_eqb k k0); simpl; [reflexivity | ].
  fold (keys d). fold (keys (counts_set k c d)). rewrite IH.
  now destruct (existsb (key_eqb k) (keys d)).
Qed.

Lemma sum_counts_set (k : json) (d : counts) :
  sum (values (counts_set k (counts_get k d 0 + 1) d)) = sum (values d) + 1.
Proof.
  induction d as [ | [k0 c0] d IH]; simpl; [reflexivity | ].
  destruct (key_eqb k k0); simpl.
  - fold (values d). fold (sum (values d)). lia.
  - fold (values d) (values (counts_set k (counts_get k d 0 + 1) d)).
    fold (sum (values d)) (sum (values (counts_set k (counts_get k d 0 + 1) d))).
    rewrite IH. lia.
Qed.

Lemma occurrences_cons (k m : json) (ms : list json) :
  occurrences k (m :: ms) = (if key_eqb m k then 1 else 0) + occurrences k ms.
Proof.
  unfold occurrences. cbn [filter].
  destruct (key_eqb m k); cbn [List.length]; lia.
Qed.

Lemma tally_get (k : json) (ms : list json) (d : counts) :
  counts_get k (tally ms d) 0 = counts_get k d 0 + occurrences k ms.
Proof.
  revert d. induction ms as [ | m ms IH]; intros d.
  - unfold tally, occurrences. simpl. lia.
  - unfold tally in *. simpl. rewrite IH, occurrences_cons.
    rewrite (key_eqb_sym m k).
    destruct (key_eqb k m) eqn:E.
    + rewrite counts_get_set_same by assumption.
      rewrite (counts_get_compat _ _ d 0 E). lia.
    + rewrite counts_get_set_other by assumption. lia.
Qed.

Lemma tally_sum (ms : list json) (d : counts) :
  sum (values (tally ms d)) = sum (values d) + Z.of_nat (List.length ms).
Proof.
  revert d. induction ms as [ | m ms IH]; intros d.
  - simpl. lia.
  - unfold tally in *. simpl fold_left. rewrite IH, sum_counts_set.
    simpl List.length. lia.
Qed.

Lemma filter_filter {A} (p q : A -> bool) (l : list A) :
  filter p (filter q l) = filter (fun x => q x && p x) l.
Proof.
  induction l as [ | x l IH]; simpl; [reflexivity | ].
  destruct (q x); simpl; [destruct (p x) | ]; now rewrite IH.
Qed.

Lemma existsb_compat (k k' : json) (l : list json) :
  key_eqb k k' = true -> existsb (key_eqb k) l = existsb (key_eqb k') l.
Proof.
  intros H. induction l as [ | x l IH]; simpl; [reflexivity | ].
  now rewrite IH, (key_eqb_compat_l _ _ x H).
Qed.

Lemma tally_keys (ms : list json) (d : counts) :
  keys (tally ms d) =
  keys d ++ filter (fun k => negb (existsb (key_eqb k) (keys d))) (first_seen ms).
Proof.
  revert d. induction ms as [ | m ms IH]; intros d.
  - simpl. now rewrite app_nil_r.
  - unfold tally in *. simpl fold_left. rewrite IH, keys_counts_set.
    simpl first_seen. simpl filter.
    destruct (existsb (key_eqb m) (keys d)) eqn:E; simpl negb; cbv iota.
    + f_equal. rewrite filter_filter. apply filter_ext. intros k.
      destruct (key_eqb k m) eqn:Ek; simpl; [ | reflexivity].
      now rewrite (existsb_compat _ _ _ Ek), E.
    + rewrite <- app_assoc. simpl. do 2 f_equal.
      rewrite filter_filter. apply filter_ext. intros k.
      rewrite existsb_app. simpl. rewrite orb_false_r, negb_orb.
      apply andb_comm.
Qed.

Lemma existsb_filter_out (k : json) (l : list json) :
  existsb (key_eqb k) (filter (fun k' => negb (key_eqb k' k)) l) = false.
Proof.
  induction l as [ | x l IH]; simpl; [reflexivity | ].
  destruct (key_eqb x k) eqn:E; simpl; [assumption | ].
  now rewrite key_eqb_sym, E, IH.
Qed.

Lemma existsb_filter_false (p : json -> bool) (k : json) (l : list json) :
  existsb (key_eqb k) l = false -> existsb (key_eqb k) (filter p l) = false.
Proof.
  induction l as [ | x l IH]; simpl; [reflexivity | ].
  intros H. apply orb_false_iff in H as [H1 H2].
  destruct (p x); simpl; [rewrite H1 | ]; auto.
Qed.

Lemma distinct_filter (p : json -> bool) (l : list json) :
  distinct l = true -> distinct (filter p l) = true.
Proof.
  induction l as [ | x l IH]; simpl; [reflexivity | ].
  intros H. apply andb_true_iff in H as [H1 H2].
  destruct (p x); simpl; auto.
  apply negb_true_iff in H1.
  rewrite (existsb_filter_false p _ _ H1). simpl. auto.
Qed.

Lemma first_seen_distinct (ms : list json) : distinct (first_seen ms) = true.
Proof.
  induction ms as [ | m ms IH]; simpl; [reflexivity | ].
  rewrite existsb_filter_out. simpl. now apply distinct_filter.
Qed.

Lemma first_seen_hashable (ms : list json) :
  forallb hashable ms = true -> forallb hashable (first_seen ms) = true.
Proof.
  induction ms as [ | m ms IH]; simpl; [reflexivity | ].
  intros H. apply andb_true_iff in H as [H1 H2]. rewrite H1. simpl.
  specialize (IH H2). rewrite forallb_forall in *.
  intros x Hx. apply filter_In in Hx. now apply IH.
Qed.

(** A dictionary with distinct keys holds, at each key, the value that
    [get] finds for it. *)
Lemma values_by_get (d : counts) :
  distinct (keys d) = true -> forallb hashable (keys d) = true ->
  values d = map (fun k => counts_get k d 0) (keys d).
Proof.
  induction d as [ | [k c] d IH]; simpl; [reflexivity | ].
  intros Hd Hh.
  apply andb_true_iff in Hd as [Hk Hd]. apply andb_true_iff in Hh as [Hhk Hh].
  rewrite (key_eqb_refl _ Hhk). f_equal.
  fold (values d) (keys d). rewrite (IH Hd Hh).
  apply map_ext_in. intros k' Hin.
  destruct (key_eqb k' k) eqn:E; [ | reflexivity].
  apply negb_true_iff in Hk.
  assert (existsb (key_eqb k) (keys d) = true) as Hex.
  { apply existsb_exists. exists k'. split; [assumption | ].
    now rewrite key_eqb_sym. }
  congruence.
Qed.

Lemma tally_empty_keys (ms : list json) : keys (tally ms []) = first_seen ms.
Proof.
  rewrite tally_keys. simpl.
  induction (first_seen ms) as [ | k l IH]; simpl; congruence.
Qed.

Lemma tally_empty_values (ms : list json) :
  forallb hashable ms = true ->
  values (tally ms []) = map (fun k => occurrences k ms) (first_seen ms).
Proof.
  intros H. rewrite values_by_get.
  - rewrite tally_empty_keys. apply map_ext. intros k.
    now rewrite tally_get.
  - rewrite tally_empty_keys. apply first_seen_distinct.
  - rewrite tally_empty_keys. now apply first_seen_hashable.
Qed.

(** The loop is the tally of the models, when every device is a dict
    with a hashable model; otherwise it raises. *)
Lemma count_device_types_tally (devices : list json) (d d' : counts) :
  count_device_types devices d = Ok d' <->
  exists ms, device_models devices = Ok ms /\
             forallb hashable ms = true /\ d' = tally ms d.
Proof.
  revert d. induction devices as [ | device devices IH]; intros d; simpl.
  - split.
    + intros [= <-]. exists []. auto.
    + intros (ms & [= <-] & _ & ->). reflexivity.
  - unfold device_models in *. simpl. unfold model_of at 1.
    destruct (get_method device "model" (JStr "Unknown")) as [m | e]; simpl.
    2: { split; [discriminate | intros (ms & ? & _); discriminate]. }
    destruct (hashable m) eqn:Hm.
    + rewrite IH. split.
      * intros (ms & E & H & ->). exists (m :: ms). rewrite E. simpl.
        rewrite Hm. auto.
      * intros (ms & E & H & ->).
        destruct (comprehension model_of devices) as [ms' | ]; [ | discriminate].
        simpl in E. injection E as <-. simpl in H. rewrite Hm in H.
        exists ms'. auto.
    + split; [discriminate | ].
      intros (ms & E & H & _).
      destruct (comprehension model_of devices) as [ms' | ]; [ | discriminate].
      simpl in E. injection E as <-. simpl in H. rewrite Hm in H. discriminate.
Qed.

Lemma count_model_occurrences (k : json) (devices ms : list json) :
  device_models devices = Ok ms -> count_model k devices = occurrences k ms.
Proof.
  unfold count_model, occurrences, device_models. intros H. f_equal.
  revert ms H. induction devices as [ | device devices IH]; simpl; intros ms.
  - now intros [= <-].
  - unfold has_model at 1.
    destruct (model_of device) as [m | ]; simpl; [ | discriminate].
    destruct (comprehension model_of devices) as [ms' | ]; simpl; [ | discriminate].
    intros [= <-]. simpl. specialize (IH ms' eq_refl).
    destruct (key_eqb m k); simpl; congruence.
Qed.

Lemma device_models_length (devices ms : list json) :
  device_models devices = Ok ms -> List.length ms = List.length devices.
Proof.
  unfold device_models. revert ms.
  induction devices as [ | device devices IH]; simpl; intros ms.
  - now intros [= <-].
  - destruct (model_of device); simpl; [ | discriminate].
    destruct (comprehension model_of devices) as [ms' | ]; simpl; [ | discriminate].
    intros [= <-]. simpl. now rewrite (IH ms' eq_refl).
Qed.

End Tally.

(** ** The steps of the endpoint *)

Section Steps.

Lemma bind_ok {A B} (m : M A) (f : A -> M B) (b : B) (t : list event) :
  bind m f = (Ok b, t) ->
  exists a t1 t2, m = (Ok a, t1) /\ f a = (Ok b, t2) /\ t = t1 ++ t2.
Proof.
  unfold bind. destruct m as [[a | e] t1]; [ | discriminate].
  destruct (f a) as [r t2] eqn:E. intros [= -> <-]. now exists a, t1, t2.
Qed.

Lemma lift_ok {A} (r : result A) (a : A) (t : list event) :
  lift r = (Ok a, t) -> r = Ok a /\ t = [].
Proof. unfold lift. now intros [= -> <-]. Qed.

Lemma ret_ok {A} (a b : A) (t : list event) :
  ret a = (Ok b, t) -> a = b /\ t = [].
Proof. unfold ret. now intros [= -> <-]. Qed.

(** A snapshot is exactly a response with status 200. *)
Lemma get_meraki_data_succeeds (w : world) (b : body) (t : list event) :
  get_meraki_data w = (Ok (b, 200), t) <-> succeeds w b t.
Proof.
  split.
  - unfold get_meraki_data. intros H.
    apply bind_ok in H as (organizations & t1 & ? & Horgs & H & ->).
    destruct (truthy organizations) eqn:To; cbn [negb] in H;
      [ | apply ret_ok in H as [[=] _] ].
    apply bind_ok in H as (organization_id & ? & ? & Hoid & H & ->).
    apply lift_ok in Hoid as [Hoid ->].
    apply bind_ok in H as (organization_name & ? & ? & Honame & H & ->).
    apply lift_ok in Honame as [Honame ->].
    apply bind_ok in H as (networks & t2 & ? & Hnets & H & ->).
    destruct (truthy networks) eqn:Tn; cbn [negb] in H;
      [ | apply ret_ok in H as [[=] _] ].
    apply bind_ok in H as (network_id & ? & ? & Hnid & H & ->).
    apply lift_ok in Hnid as [Hnid ->].
    apply bind_ok in H as (network_name & ? & ? & Hnname & H & ->).
    apply lift_ok in Hnname as [Hnname ->].
    apply bind_ok in H as (devices & t3 & ? & Hdevs & H & ->).
    apply bind_ok in H as (clients & t4 & ? & Hclis & H & ->).
    apply bind_ok in H as (device_names & ? & ? & Hnames & H & ->).
    apply lift_ok in Hnames as [Hnames ->].
    apply bind_ok in H as (device_statuses & ? & ? & Hstats & H & ->).
    apply lift_ok in Hstats as [Hstats ->].
    apply bind_ok in H as (client_count & ? & ? & Hcc & H & ->).
    apply lift_ok in Hcc as [Hcc ->].
    apply bind_ok in H as (device_type_counts & ? & ? & Hdtc & H & ->).
    apply lift_ok in Hdtc as [Hdtc ->].
    apply bind_ok in H as (deviceCount & ? & ? & Hdc & H & ->).
    apply lift_ok in Hdc as [Hdc ->].
    apply ret_ok in H as [[= <-] ->].
    simpl. rewrite app_nil_r.
    eapply Snapshot; eassumption.
  - intros [organizations organization_id organization_name
              networks network_id network_name devices clients
              device_names device_statuses client_count deviceCount
              device_type_counts t1 t2 t3 t4
              Horgs To Hoid Honame Hnets Tn Hnid Hnname Hdevs Hclis
              Hnames Hstats Hcc Hdtc Hdc].
    unfold first_field, device_fields in *.
    unfold get_meraki_data, bind, lift, ret.
    rewrite Horgs, To. cbn [negb]. cbv beta iota.
    rewrite Hoid, Honame, Hnets, Tn. cbn [negb]. cbv beta iota.
    rewrite Hnid, Hnname, Hdevs. cbv beta iota.
    rewrite Hclis, Hnames, Hstats, Hcc, Hdtc, Hdc.
    cbn [app jsonify]. unfold dashboard.
    now rewrite !app_nil_r.
Qed.

End Steps.

(** ** The shape of the values a snapshot is built from *)

Section Shapes.

(** Selecting the first organization or network goes through exactly
    on a non-empty list that starts with a record holding both fields. *)
Lemma selects_first_field (v id name : json) :
  selects v id name <->
  truthy v = true /\ first_field "id" v = Ok id /\ first_field "name" v = Ok name.
Proof.
  unfold selects, first_field. split.
  - intros (members & rest & -> & Hid & Hname). simpl.
    now rewrite Hid, Hname.
  - intros (Ht & Hid & Hname).
    destruct v as [ | b | n | s | items | members]; simpl in Hid; try discriminate.
    + destruct s as [ | c s]; simpl in Hid; discriminate.
    + destruct items as [ | first rest]; simpl in Hid, Hname; [discriminate | ].
      destruct first as [ | b | n | s | items | members];
        simpl in Hid, Hname; try discriminate.
      exists members, rest. split; [reflexivity | ].
      destruct (lookup "id" members); [ | discriminate].
      destruct (lookup "name" members); [ | discriminate].
      split; congruence.
Qed.

(** The tally and the count of devices come from the records of the
    fetched value: when the loop goes through, every record is a dict
    with a hashable model. *)
Lemma device_tally_shape (devices : json) (device_type_counts : counts)
      (deviceCount : Z) :
  (if truthy devices
   then (ds <- iterate devices ;; count_device_types ds [])%result
   else Ok []) = Ok device_type_counts ->
  (if truthy devices then len devices else Ok 0) = Ok deviceCount ->
  exists ms,
    device_models (items_of devices) = Ok ms /\
    forallb hashable ms = true /\
    device_type_counts = tally ms [] /\
    deviceCount = Z.of_nat (List.length (items_of devices)).
Proof.
  intros Hdtc Hdc.
  assert (truthy devices = false ->
          exists ms,
            device_models (items_of devices) = Ok ms /\
            forallb hashable ms = true /\
            device_type_counts = tally ms [] /\
            deviceCount = Z.of_nat (List.length (items_of devices))) as Hfalsy.
  { intros Hf. rewrite Hf in Hdtc, Hdc.
    injection Hdtc as <-. injection Hdc as <-. exists [].
    destruct devices as [ | b | n | s | [ | ? ?] | members];
      try discriminate; now simpl. }
  destruct (truthy devices) eqn:Ht; [ | now apply Hfalsy].
  destruct devices as [ | b | n | s | items | members]; try discriminate.
  - destruct s as [ | c s]; discriminate.
  - simpl in Hdtc, Hdc. injection Hdc as <-.
    apply count_device_types_tally in Hdtc as (ms & Hms & Hh & ->).
    now exists ms.
  - destruct members as [ | [k v] members]; discriminate.
Qed.

(** Reading a field with [get] goes through on every record. *)
Lemma records_fields (devices ms : list json) (key : string) (default : json) :
  device_models devices = Ok ms ->
  exists l,
    comprehension (fun device => get_method device key default) devices = Ok l.
Proof.
  unfold device_models. revert ms.
  induction devices as [ | device devices IH]; simpl; intros ms H.
  - now exists [].
  - destruct device as [ | b | n | s | items | members]; try discriminate.
    simpl in *.
    destruct (comprehension model_of devices) as [ms' | ];
      [ | destruct (lookup "model" members); discriminate].
    destruct (IH ms' eq_refl) as [l ->].
    destruct (lookup key members); eexists; reflexivity.
Qed.

Lemma device_fields_records (devices ms : list json) (key : string) :
  device_models devices = Ok ms ->
  exists l, device_fields key (JArr devices) = Ok l.
Proof.
  intros H. unfold device_fields.
  destruct (truthy (JArr devices)); [ | now exists []].
  simpl. now apply records_fields with (ms := ms).
Qed.

Lemma count_device_types_records (devices ms : list json) :
  device_models devices = Ok ms -> forallb hashable ms = true ->
  (if truthy (JArr devices)
   then (ds <- iterate (JArr devices) ;; count_device_types ds [])%result
   else Ok []) = Ok (tally ms []).
Proof.
  intros Hms Hh. destruct devices as [ | device devices].
  - injection Hms as <-. reflexivity.
  - cbn [truthy iterate ResultMonad.bind].
    apply count_device_types_tally. now exists ms.
Qed.

Lemma client_count_list (items : list json) :
  (if truthy (JArr items) then len (JArr items) else Ok 0)
  = Ok (Z.of_nat (List.length items)).
Proof. now destruct items. Qed.

End Shapes.

(** ** The API client *)

Section Client.

Variable w : world.

Lemma guarded_get_calls (req : request) (message : text) :
  calls (trace (guarded_get w req message)) = [req].
Proof.
  unfold guarded_get. now destruct (attempt_get w req).
Qed.

Lemma perform_guarded_get (op : operation) :
  exists message, perform w op = guarded_get w (request_of w op) message.
Proof. destruct op; simpl; eexists; reflexivity. Qed.

Lemma perform_calls (op : operation) :
  calls (trace (perform w op)) = [request_of w op].
Proof.
  destruct (perform_guarded_get op) as [message ->]. apply guarded_get_calls.
Qed.

Lemma guarded_get_failed (req : request) (message : text) (detail : string) :
  upstream w req = Failed detail ->
  outcome (guarded_get w req message) = Ok JNull.
Proof. unfold guarded_get, attempt_get. now intros ->. Qed.

Lemma guarded_get_error_status (req : request) (message : text)
      (status : Z) (content : option json) :
  upstream w req = Reply status content -> 400 <= status < 600 ->
  outcome (guarded_get w req message) = Ok JNull.
Proof.
  unfold guarded_get, attempt_get, raise_for_status. intros -> H.
  replace ((400 <=? status) && (status <? 600)) with true; [reflexivity | ].
  symmetry. apply andb_true_iff. split; [apply Z.leb_le | apply Z.ltb_lt]; lia.
Qed.

Lemma guarded_get_success (req : request) (message : text)
      (status : Z) (v : json) :
  upstream w req = Reply status (Some v) -> 200 <= status < 300 ->
  guarded_get w req message = (Ok v, [Call req]).
Proof.
  unfold guarded_get, attempt_get, raise_for_status. intros -> H.
  replace ((400 <=? status) && (status <? 600)) with false; [reflexivity | ].
  symmetry. apply andb_false_iff. left. apply Z.leb_gt. lia.
Qed.

(** A falsy result of the organizations fetch ends the request at
    the first check. *)
Lemma falsy_organizations (organizations : json) (t1 : list event) :
  get_organizations w = (Ok organizations, t1) ->
  truthy organizations = false ->
  get_meraki_data w = (Ok could_not_fetch_organizations, t1).
Proof.
  intros H Hf. unfold get_meraki_data, bind, ret.
  rewrite H, Hf. cbn [negb]. cbv beta iota.
  now rewrite app_nil_r.
Qed.

Lemma falsy_networks (organizations organization_id organization_name networks : json)
      (t1 t2 : list event) :
  get_organizations w = (Ok organizations, t1) ->
  truthy organizations = true ->
  first_field "id" organizations = Ok organization_id ->
  first_field "name" organizations = Ok organization_name ->
  get_networks w organization_id = (Ok networks, t2) ->
  truthy networks = false ->
  get_meraki_data w = (Ok (no_networks_found organization_name), t1 ++ t2).
Proof.
  unfold first_field. intros H Ht Hid Hname Hn Hf.
  unfold get_meraki_data, bind, ret, lift.
  rewrite H, Ht. cbn [negb]. cbv beta iota.
  rewrite Hid, Hname, Hn, Hf. cbn [negb]. cbv beta iota.
  cbn [app]. now rewrite app_nil_r.
Qed.

(** With the first organization and network selected, a list of
    device records with hashable models, and clients that are a list
    or unavailable, the endpoint answers with a snapshot. *)
Lemma snapshot_of_records
      (organizations organization_id organization_name : json)
      (networks network_id network_name clients : json)
      (devices ms : list json) (t1 t2 t3 t4 : list event) :
  get_organizations w = (Ok organizations, t1) ->
  selects organizations organization_id organization_name ->
  get_networks w organization_id = (Ok networks, t2) ->
  selects networks network_id network_name ->
  get_network_devices w network_id = (Ok (JArr devices), t3) ->
  get_network_clients w network_id 86400 = (Ok clients, t4) ->
  clients = JNull \/ (exists items, clients = JArr items) ->
  device_models devices = Ok ms ->
  forallb hashable ms = true ->
  get_meraki_data w
  = (Ok (dashboard organization_name network_name (JArr devices) clients
           (Z.of_nat (List.length devices))
           (Z.of_nat (List.length (items_of clients)))
           (tally ms []), 200),
     t1 ++ t2 ++ t3 ++ t4).
Proof.
  intros Horgs Hso Hnets Hsn Hdevs Hclis Hc Hms Hh.
  apply selects_first_field in Hso as (To & Hoid & Honame).
  apply selects_first_field in Hsn as (Tn & Hnid & Hnname).
  destruct (device_fields_records devices ms "name" Hms) as [names Hnames].
  destruct (device_fields_records devices ms "status" Hms) as [statuses Hstatuses].
  apply get_meraki_data_succeeds.
  eapply Snapshot; try eassumption.
  - destruct Hc as [-> | [items ->]]; [reflexivity | apply client_count_list].
  - now apply count_device_types_records.
  - now destruct devices.
Qed.

End Client.

(** ** Device types and their counts *)

Section DeviceTypes.

Lemma snapshot_tally (w : world) (b : body) (t : list event) :
  get_meraki_data w = (Ok (b, 200), t) ->
  exists devices ms,
    field_of "devices" b = Some (Json devices) /\
    device_models (items_of devices) = Ok ms /\
    forallb hashable ms = true /\
    field_of "deviceTypes" b = Some (Json (JArr (first_seen ms))) /\
    field_of "deviceTypeCounts" b =
      Some (Json (JArr (map JNum (map (fun k => occurrences k ms) (first_seen ms))))) /\
    field_of "deviceCount" b =
      Some (Json (JNum (Z.of_nat (List.length (items_of devices))))).
Proof.
  intros H. apply get_meraki_data_succeeds in H.
  destruct H as [organizations organization_id organization_name
                 networks network_id network_name devices clients
                 device_names device_statuses client_count deviceCount
                 device_type_counts t1 t2 t3 t4
                 _ _ _ _ _ _ _ _ _ _ _ _ _ Hdtc Hdc].
  destruct (device_tally_shape _ _ _ Hdtc Hdc) as (ms & Hms & Hh & -> & ->).
  exists devices, ms. unfold dashboard. cbn [field_of String.eqb Ascii.eqb Bool.eqb].
  rewrite tally_empty_keys, (tally_empty_values _ Hh). auto 10.
Qed.

(** A device without a [model] field counts as ["Unknown"]. *)
Example model_absent :
  model_of (JObj [("name", JStr "AP-1"); ("status", JStr "online")])
  = Ok (JStr "Unknown").
Proof. reflexivity. Qed.

(** The order is that of first appearance, not of the final counts. *)
Example tally_interleaved :
  count_device_types
    [JObj [("model", JStr "MS220")]; JObj [("name", JStr "AP-1")];
     JObj [("model", JStr "MR33")]; JObj [("model", JStr "MR33")];
     JObj [("model", JStr "MS220")]; JObj [("model", JStr "MR33")]] []
  = Ok [(JStr "MS220", 2); (JStr "Unknown", 1); (JStr "MR33", 3)].
Proof. reflexivity. Qed.

(** A record that is not a dict, or a model that is a list, stops the
    loop with an exception. *)
Example tally_raises :
  count_device_types [JStr "MR33"] [] = Raise AttributeError /\
  count_device_types [JObj [("model", JArr [])]] [] = Raise TypeError.
Proof. split; reflexivity. Qed.

End DeviceTypes.

(** C1.  For every list of device records fetched for the selected
    network, the endpoint answers with a snapshot in which
    [deviceTypes] lists the distinct models (["Unknown"] when the field
    is absent) in first-seen order and [deviceTypeCounts] holds, in the
    same order, the number of devices of each model. *)
Theorem device_types_first_seen
  (w : world)
  (organizations organization_id organization_name : json)
  (networks network_id network_name clients : json)
  (devices models : list json) (t1 t2 t3 t4 : list event) :
  get_organizations w = (Ok organizations, t1) ->
  selects organizations organization_id organization_name ->
  get_networks w organization_id = (Ok networks, t2) ->
  selects networks network_id network_name ->
  get_network_devices w network_id = (Ok (JArr devices), t3) ->
  get_network_clients w network_id 86400 = (Ok clients, t4) ->
  clients = JNull \/ (exists items, clients = JArr items) ->
  device_models devices = Ok models ->
  forallb hashable models = true ->
  exists b,
    get_meraki_data w = (Ok (b, 200), t1 ++ t2 ++ t3 ++ t4) /\
    field_of "deviceTypes" b = Some (Json (JArr (first_seen models))) /\
    field_of "deviceTypeCounts" b
    = Some (Json (JArr (map JNum (map (fun k => count_model k devices)
                                      (first_seen models))))).
Proof.
  intros Horgs Hso Hnets Hsn Hdevs Hclis Hc Hms Hh.
  eexists. split.
  - eapply snapshot_of_records; eassumption.
  - unfold dashboard. cbn [field_of String.eqb Ascii.eqb Bool.eqb].
    rewrite tally_empty_keys, (tally_empty_values _ Hh). split; [reflexivity | ].
    assert (map (fun k => count_model k devices) (first_seen models)
            = map (fun k => occurrences k models) (first_seen models)) as ->
      by (apply map_ext; intros k; now apply count_model_occurrences).
    reflexivity.
Qed.

(** The example of the specification: two MR33 and one MS220. *)
Lemma device_types_first_seen_witness :
  exists b,
    get_meraki_data Demo.healthy
    = (Ok (b, 200),
       trace (get_organizations Demo.healthy)
       ++ trace (get_networks Demo.healthy (JStr "549236"))
       ++ trace (get_network_devices Demo.healthy (JStr "L_646829496481105433"))
       ++ trace (get_network_clients Demo.healthy (JStr "L_646829496481105433") 86400)) /\
    field_of "deviceTypes" b = Some (Json (JArr [JStr "MR33"; JStr "MS220"])) /\
    field_of "deviceTypeCounts" b = Some (Json (JArr [JNum 2; JNum 1])).
Proof.
  refine (device_types_first_seen Demo.healthy
            (JArr [Demo.organization]) (JStr "549236") (JStr "DevNet Sandbox")
            (JArr [Demo.network]) (JStr "L_646829496481105433") (JStr "DNSMB1")
            (JArr Demo.clients) Demo.devices
            [JStr "MR33"; JStr "MR33"; JStr "MS220"] _ _ _ _
            eq_refl _ eq_refl _ eq_refl eq_refl
            (or_intror (ex_intro _ Demo.clients eq_refl)) eq_refl eq_refl).
  - exists [("id", JStr "549236"); ("name", JStr "DevNet Sandbox")], [].
    repeat split.
  - exists [("id", JStr "L_646829496481105433"); ("name", JStr "DNSMB1")], [].
    repeat split.
Defined.

(** C2.  In every snapshot the two arrays have the same length, the
    count at an index is the number of devices whose model equals the
    type at that index, and the counts add up to [deviceCount], the
    number of devices. *)
Theorem device_type_counts_invariant (w : world) (b : body) (t : list event) :
  get_meraki_data w = (Ok (b, 200), t) ->
  exists devices types tallies deviceCount,
    field_of "devices" b = Some (Json devices) /\
    field_of "deviceTypes" b = Some (Json (JArr types)) /\
    field_of "deviceTypeCounts" b = Some (Json (JArr (map JNum tallies))) /\
    field_of "deviceCount" b = Some (Json (JNum deviceCount)) /\
    deviceCount = Z.of_nat (List.length (items_of devices)) /\
    List.length types = List.length tallies /\
    (forall i k c,
        nth_error types i = Some k -> nth_error tallies i = Some c ->
        c = count_model k (items_of devices)) /\
    sum tallies = deviceCount.
Proof.
  intros H.
  destruct (snapshot_tally _ _ _ H) as (devices & ms & Hd & Hms & Hh & Ht & Hc & Hn).
  exists devices, (first_seen ms),
    (map (fun k => occurrences k ms) (first_seen ms)),
    (Z.of_nat (List.length (items_of devices))).
  repeat split; try assumption.
  - now rewrite length_map.
  - intros i k c Hk Hi. rewrite nth_error_map, Hk in Hi. injection Hi as <-.
    symmetry. now apply count_model_occurrences.
  - rewrite <- (tally_empty_values _ Hh), tally_sum.
    rewrite (device_models_length _ _ Hms). reflexivity.
Qed.

Lemma device_type_counts_invariant_witness :
  exists devices types tallies deviceCount,
    field_of "devices" (body_of (get_meraki_data Demo.healthy)) = Some (Json devices) /\
    field_of "deviceTypes" (body_of (get_meraki_data Demo.healthy))
      = Some (Json (JArr types)) /\
    field_of "deviceTypeCounts" (body_of (get_meraki_data Demo.healthy))
      = Some (Json (JArr (map JNum tallies))) /\
    field_of "deviceCount" (body_of (get_meraki_data Demo.healthy))
      = Some (Json (JNum deviceCount)) /\
    deviceCount = Z.of_nat (List.length (items_of devices)) /\
    List.length types = List.length tallies /\
    (forall i k c,
        nth_error types i = Some k -> nth_error tallies i = Some c ->
        c = count_model k (items_of devices)) /\
    sum tallies = deviceCount.
Proof.
  exact (device_type_counts_invariant Demo.healthy
           (body_of (get_meraki_data Demo.healthy))
           (trace (get_meraki_data Demo.healthy)) eq_refl).
Defined.

(** ** What the endpoint can answer, and what it sends *)

Section Responses.

Variable w : world.

Lemma outcome_trace {A} (m : M A) (r : result A) :
  outcome m = r -> m = (r, trace m).
Proof. destruct m. simpl. congruence. Qed.

(** A response is one of three: the two error responses of lines 90
    and 100, or a snapshot. *)
Lemma response_cases (resp : response) :
  outcome (get_meraki_data w) = Ok resp ->
  resp = could_not_fetch_organizations \/
  (exists organization_name, resp = no_networks_found organization_name) \/
  (exists b, resp = (b, 200)).
Proof.
  intros H. apply outcome_trace in H. revert H.
  generalize (trace (get_meraki_data w)) as t.
  unfold get_meraki_data. intros t H.
  apply bind_ok in H as (organizations & t1 & ? & Horgs & H & ->).
  destruct (truthy organizations); cbn [negb] in H;
    [ | apply ret_ok in H as [<- _]; now left ].
  apply bind_ok in H as (organization_id & ? & ? & _ & H & ->).
  apply bind_ok in H as (organization_name & ? & ? & _ & H & ->).
  apply bind_ok in H as (networks & t2 & ? & _ & H & ->).
  destruct (truthy networks); cbn [negb] in H;
    [ | apply ret_ok in H as [<- _]; right; left; now exists organization_name ].
  repeat (apply bind_ok in H as (? & ? & ? & _ & H & ->)).
  apply ret_ok in H as [<- _]. right; right. eexists. reflexivity.
Qed.

Lemma calls_app (t1 t2 : list event) : calls (t1 ++ t2) = calls t1 ++ calls t2.
Proof.
  induction t1 as [ | [r | line] t1 IH]; simpl; congruence.
Qed.

Lemma sends_bind {A B} (P : request -> Prop) (m : M A) (f : A -> M B) :
  sends P m -> (forall a, sends P (f a)) -> sends P (bind m f).
Proof.
  unfold sends, trace, bind. destruct m as [[a | e] t]; simpl; [ | auto].
  intros Hm Hf. specialize (Hf a). destruct (f a) as [r t']. simpl in *.
  rewrite calls_app. apply Forall_app. auto.
Qed.

Lemma sends_ret {A} (P : request -> Prop) (a : A) : sends P (ret a).
Proof. constructor. Qed.

Lemma sends_lift {A} (P : request -> Prop) (r : result A) : sends P (lift r).
Proof. constructor. Qed.

Lemma sends_perform (P : request -> Prop) (op : operation) :
  P (request_of w op) -> sends P (perform w op).
Proof.
  intros H. unfold sends. rewrite perform_calls. now constructor.
Qed.

(** Every request of the endpoint carries [HEADERS], and the only
    query parameter ever sent is [timespan=86400]. *)
Lemma get_meraki_data_sends :
  sends (fun req =>
           headers req = HEADERS w /\
           forall k v, In (k, v) (params req) -> k = "timespan" /\ v = 86400)
        (get_meraki_data w).
Proof.
  assert (forall k v, In (k, v) (@nil (string * Z)) ->
                      k = "timespan" /\ v = 86400) as Hnil
    by (intros k v []).
  unfold get_meraki_data.
  apply sends_bind;
    [apply (sends_perform _ FetchOrganizations); now split | intros organizations].
  destruct (negb (truthy organizations)); [apply sends_ret | ].
  apply sends_bind; [apply sends_lift | intros organization_id].
  apply sends_bind; [apply sends_lift | intros organization_name].
  apply sends_bind;
    [apply (sends_perform _ (FetchNetworks organization_id)); now split
    | intros networks].
  destruct (negb (truthy networks)); [apply sends_ret | ].
  apply sends_bind; [apply sends_lift | intros network_id].
  apply sends_bind; [apply sends_lift | intros network_name].
  apply sends_bind;
    [apply (sends_perform _ (FetchDevices network_id)); now split
    | intros devices].
  apply sends_bind;
    [apply (sends_perform _ (FetchClients network_id 86400)); split;
     [reflexivity | ]
    | intros clients].
  { intros k v [[= <- <-] | []]. auto. }
  repeat (apply sends_bind; [apply sends_lift | intros ?]).
  apply sends_ret.
Qed.

End Responses.

(** ** The claims about errors, counts and configuration *)

(** C3.  When the organizations fetch returns the sentinel [None] or an
    empty list, the endpoint answers with status 500 and a body whose
    [error] field mentions the API key and connectivity; the only
    request sent is the one for the organizations. *)
Theorem organizations_unavailable_500
  (w : world) (organizations : json) (t1 : list event) :
  get_organizations w = (Ok organizations, t1) ->
  organizations = JNull \/ organizations = JArr [] ->
  exists message,
    get_meraki_data w = (Ok ([("error", Json (JStr message))], 500), t1) /\
    mentions "API key" message = true /\
    mentions "connectivity" message = true /\
    calls (trace (get_meraki_data w)) = [request_of w FetchOrganizations].
Proof.
  intros H Hd.
  assert (truthy organizations = false) as Hf by (destruct Hd; now subst).
  exists "Could not fetch organizations. Check API key and network connectivity.".
  rewrite (falsy_organizations w _ _ H Hf). repeat split.
  pose proof (perform_calls w FetchOrganizations) as Hc.
  simpl perform in Hc. now rewrite H in Hc.
Qed.

Lemma organizations_unavailable_500_witness :
  exists message,
    get_meraki_data Demo.organizations_down
    = (Ok ([("error", Json (JStr message))], 500),
       trace (get_organizations Demo.organizations_down)) /\
    mentions "API key" message = true /\
    mentions "connectivity" message = true /\
    calls (trace (get_meraki_data Demo.organizations_down))
    = [request_of Demo.organizations_down FetchOrganizations].
Proof.
  apply (organizations_unavailable_500 Demo.organizations_down JNull);
    [reflexivity | left; reflexivity].
Defined.

(** C4.  When the first organization is selected and the networks
    fetch for it returns the sentinel or an empty list, the endpoint
    answers with status 404 and an [error] field built from the name of
    that organization; for a name that is a string the message is
    "No networks found for organization <name>.". *)
Theorem networks_unavailable_404
  (w : world) (organizations organization_id organization_name networks : json)
  (t1 t2 : list event) :
  get_organizations w = (Ok organizations, t1) ->
  selects organizations organization_id organization_name ->
  get_networks w organization_id = (Ok networks, t2) ->
  networks = JNull \/ networks = JArr [] ->
  get_meraki_data w
  = (Ok ([("error", str_field [Lit "No networks found for organization ";
                               fmt organization_name; Lit "."])], 404),
     t1 ++ t2) /\
  forall name, organization_name = JStr name ->
    str_field [Lit "No networks found for organization ";
               fmt organization_name; Lit "."]
    = Json (JStr ("No networks found for organization " ++ name ++ ".")%string).
Proof.
  intros H Hsel Hn Hd.
  apply selects_first_field in Hsel as (Ht & Hid & Hname).
  assert (truthy networks = false) as Hf by (destruct Hd; now subst).
  split.
  - exact (falsy_networks w _ _ _ _ _ _ H Ht Hid Hname Hn Hf).
  - intros name ->. reflexivity.
Qed.

Lemma networks_unavailable_404_witness :
  get_meraki_data Demo.no_networks
  = (Ok ([("error", Json (JStr "No networks found for organization DevNet Sandbox."))], 404),
     trace (get_organizations Demo.no_networks)
     ++ trace (get_networks Demo.no_networks (JStr "549236"))).
Proof.
  refine (proj1 (networks_unavailable_404 Demo.no_networks
                   (JArr [Demo.organization]) (JStr "549236")
                   (JStr "DevNet Sandbox") (JArr []) _ _ eq_refl _ eq_refl
                   (or_intror eq_refl))).
  exists [("id", JStr "549236"); ("name", JStr "DevNet Sandbox")], [].
  repeat split.
Defined.

(** C5.  When the organization and the network are selected and the
    devices fetch returns the sentinel, the endpoint answers with
    status 200, [deviceCount] 0, [deviceTypes] empty, and [clientCount]
    the length of the fetched list of clients, 0 when the clients are
    unavailable too. *)
Theorem devices_unavailable_200
  (w : world)
  (organizations organization_id organization_name : json)
  (networks network_id network_name clients : json)
  (t1 t2 t3 t4 : list event) :
  get_organizations w = (Ok organizations, t1) ->
  selects organizations organization_id organization_name ->
  get_networks w organization_id = (Ok networks, t2) ->
  selects networks network_id network_name ->
  get_network_devices w network_id = (Ok JNull, t3) ->
  get_network_clients w network_id 86400 = (Ok clients, t4) ->
  clients = JNull \/ (exists items, clients = JArr items) ->
  exists b,
    get_meraki_data w = (Ok (b, 200), t1 ++ t2 ++ t3 ++ t4) /\
    field_of "deviceCount" b = Some (Json (JNum 0)) /\
    field_of "deviceTypes" b = Some (Json (JArr [])) /\
    field_of "clientCount" b
    = Some (Json (JNum (Z.of_nat (List.length (items_of clients))))).
Proof.
  intros Horgs Hso Hnets Hsn Hdevs Hclis Hc.
  apply selects_first_field in Hso as (To & Hoid & Honame).
  apply selects_first_field in Hsn as (Tn & Hnid & Hnname).
  exists (dashboard organization_name network_name JNull clients
            0 (Z.of_nat (List.length (items_of clients))) []).
  split; [ | repeat split].
  apply get_meraki_data_succeeds.
  eapply Snapshot; try eassumption; try reflexivity.
  destruct Hc as [-> | [items ->]]; [reflexivity | apply client_count_list].
Qed.

Lemma devices_unavailable_200_witness :
  exists b,
    get_meraki_data Demo.devices_down
    = (Ok (b, 200),
       trace (get_organizations Demo.devices_down)
       ++ trace (get_networks Demo.devices_down (JStr "549236"))
       ++ trace (get_network_devices Demo.devices_down (JStr "L_646829496481105433"))
       ++ trace (get_network_clients Demo.devices_down (JStr "L_646829496481105433") 86400)) /\
    field_of "deviceCount" b = Some (Json (JNum 0)) /\
    field_of "deviceTypes" b = Some (Json (JArr [])) /\
    field_of "clientCount" b = Some (Json (JNum 5)).
Proof.
  refine (devices_unavailable_200 Demo.devices_down
            (JArr [Demo.organization]) (JStr "549236") (JStr "DevNet Sandbox")
            (JArr [Demo.network]) (JStr "L_646829496481105433") (JStr "DNSMB1")
            (JArr Demo.clients) _ _ _ _ eq_refl _ eq_refl _ eq_refl eq_refl
            (or_intror (ex_intro _ Demo.clients eq_refl))).
  - exists [("id", JStr "549236"); ("name", JStr "DevNet Sandbox")], [].
    repeat split.
  - exists [("id", JStr "L_646829496481105433"); ("name", JStr "DNSMB1")], [].
    repeat split.
Defined.

(** C6.  Each of the four operations returns the sentinel [None], and
    raises nothing, when the transport fails or the status is 4xx or
    5xx, and returns the parsed body on a 2xx response. *)
Theorem client_unavailable_or_parsed (w : world) (op : operation) :
  (forall detail,
      upstream w (request_of w op) = Failed detail ->
      outcome (perform w op) = Ok JNull) /\
  (forall status content,
      upstream w (request_of w op) = Reply status content ->
      400 <= status < 600 ->
      outcome (perform w op) = Ok JNull) /\
  (forall status v,
      upstream w (request_of w op) = Reply status (Some v) ->
      200 <= status < 300 ->
      outcome (perform w op) = Ok v).
Proof.
  destruct (perform_guarded_get w op) as [message ->]. repeat split.
  - intros detail H. exact (guarded_get_failed w _ _ _ H).
  - intros status content H Hs. exact (guarded_get_error_status w _ _ _ _ H Hs).
  - intros status v H Hs. now rewrite (guarded_get_success w _ _ _ _ H Hs).
Qed.

Lemma client_unavailable_or_parsed_witness :
  outcome (get_organizations Demo.organizations_down) = Ok JNull /\
  outcome (get_networks Demo.networks_down (JStr "549236")) = Ok JNull /\
  outcome (get_network_clients Demo.healthy (JStr "L_646829496481105433") 86400)
  = Ok (JArr Demo.clients).
Proof.
  split; [ | split].
  - apply (proj1 (client_unavailable_or_parsed
                    Demo.organizations_down FetchOrganizations)
             "Connection timed out").
    reflexivity.
  - apply (proj1 (proj2 (client_unavailable_or_parsed
                           Demo.networks_down (FetchNetworks (JStr "549236"))))
             503 None); [reflexivity | lia].
  - apply (proj2 (proj2 (client_unavailable_or_parsed
                           Demo.healthy
                           (FetchClients (JStr "L_646829496481105433") 86400)))
             200 (JArr Demo.clients)); [reflexivity | lia].
Defined.

(** C7.  The only query parameter the endpoint ever sends is
    [timespan=86400]; a snapshot is built from the clients fetched with
    [timespan=86400], that fetch is the last step of its trace, and
    when it returned a list, [clientCount] is the length of that list,
    whatever the records are. *)
Theorem clients_window_and_count (w : world) :
  sends (fun req => forall k v, In (k, v) (params req) ->
                                k = "timespan" /\ v = 86400)
        (get_meraki_data w) /\
  forall b t,
    get_meraki_data w = (Ok (b, 200), t) ->
    exists network_id clients t' t4,
      get_network_clients w network_id 86400 = (Ok clients, t4) /\
      t = t' ++ t4 /\
      calls t4 = [request_of w (FetchClients network_id 86400)] /\
      params (request_of w (FetchClients network_id 86400)) = [("timespan", 86400)] /\
      field_of "clients" b = Some (Json clients) /\
      forall items, clients = JArr items ->
        field_of "clientCount" b = Some (Json (JNum (Z.of_nat (List.length items)))).
Proof.
  split.
  - eapply Forall_impl; [ | apply get_meraki_data_sends].
    intros req [_ H]. exact H.
  - intros b t H. apply get_meraki_data_succeeds in H.
    destruct H as [organizations organization_id organization_name
                   networks network_id network_name devices clients
                   device_names device_statuses client_count deviceCount
                   device_type_counts t1 t2 t3 t4
                   _ _ _ _ _ _ _ _ _ Hclis _ _ Hcc _ _].
    exists network_id, clients, (t1 ++ t2 ++ t3), t4.
    repeat split.
    + assumption.
    + now rewrite <- !app_assoc.
    + pose proof (perform_calls w (FetchClients network_id 86400)) as Hc.
      simpl perform in Hc. now rewrite Hclis in Hc.
    + intros items ->. rewrite client_count_list in Hcc. now injection Hcc as <-.
Qed.

(** Five client records of unrelated shapes give [clientCount] 5. *)
Lemma clients_window_and_count_witness :
  field_of "clientCount" (body_of (get_meraki_data Demo.healthy))
  = Some (Json (JNum 5)) /\
  params (request_of Demo.healthy (FetchClients (JStr "L_646829496481105433") 86400))
  = [("timespan", 86400)].
Proof.
  destruct (proj2 (clients_window_and_count Demo.healthy)
              (body_of (get_meraki_data Demo.healthy))
              (trace (get_meraki_data Demo.healthy)) eq_refl)
    as (network_id & clients & t' & t4 & _ & _ & _ & _ & Hraw & Hcount).
  vm_compute in Hraw. injection Hraw as <-.
  split; [exact (Hcount Demo.clients eq_refl) | reflexivity].
Defined.

(** C8, as stated, fails: when the devices fetch is unavailable the
    [devices] field of the snapshot is [null], not a list. *)
Lemma raw_devices_null_counterexample :
  exists b t,
    get_meraki_data Demo.devices_down = (Ok (b, 200), t) /\
    field_of "devices" b = Some (Json JNull) /\
    ~ (exists items, field_of "devices" b = Some (Json (JArr items))).
Proof.
  exists (body_of (get_meraki_data Demo.devices_down)),
    (trace (get_meraki_data Demo.devices_down)).
  split; [reflexivity | split; [reflexivity | ]].
  intros [items H]. vm_compute in H. discriminate H.
Qed.

(** C8, amended.  The [devices] and [clients] fields of a snapshot are
    the results of the two fetches, unchanged: the list when the fetch
    returned one, [null] when it came back unavailable.  Only the
    derived fields treat an unavailable result as an empty list. *)
Theorem raw_fields_pass_through (w : world) (b : body) (t : list event) :
  get_meraki_data w = (Ok (b, 200), t) ->
  exists network_id devices clients t3 t4,
    get_network_devices w network_id = (Ok devices, t3) /\
    get_network_clients w network_id 86400 = (Ok clients, t4) /\
    field_of "devices" b = Some (Json devices) /\
    field_of "clients" b = Some (Json clients) /\
    (devices = JNull ->
     field_of "deviceCount" b = Some (Json (JNum 0)) /\
     field_of "deviceTypes" b = Some (Json (JArr [])) /\
     field_of "deviceTypeCounts" b = Some (Json (JArr []))) /\
    (clients = JNull -> field_of "clientCount" b = Some (Json (JNum 0))).
Proof.
  intros H. apply get_meraki_data_succeeds in H.
  destruct H as [organizations organization_id organization_name
                 networks network_id network_name devices clients
                 device_names device_statuses client_count deviceCount
                 device_type_counts t1 t2 t3 t4
                 _ _ _ _ _ _ _ _ Hdevs Hclis _ _ Hcc Hdtc Hdc].
  exists network_id, devices, clients, t3, t4.
  do 4 (split; [assumption || reflexivity | ]). split.
  - intros ->. simpl in Hdc, Hdtc.
    injection Hdc as <-. injection Hdtc as <-. repeat split.
  - intros ->. simpl in Hcc. now injection Hcc as <-.
Qed.

Lemma raw_fields_pass_through_witness :
  exists network_id devices clients t3 t4,
    get_network_devices Demo.devices_down network_id = (Ok devices, t3) /\
    get_network_clients Demo.devices_down network_id 86400 = (Ok clients, t4) /\
    field_of "devices" (body_of (get_meraki_data Demo.devices_down))
    = Some (Json devices) /\
    field_of "clients" (body_of (get_meraki_data Demo.devices_down))
    = Some (Json clients) /\
    (devices = JNull ->
     field_of "deviceCount" (body_of (get_meraki_data Demo.devices_down))
     = Some (Json (JNum 0)) /\
     field_of "deviceTypes" (body_of (get_meraki_data Demo.devices_down))
     = Some (Json (JArr [])) /\
     field_of "deviceTypeCounts" (body_of (get_meraki_data Demo.devices_down))
     = Some (Json (JArr []))) /\
    (clients = JNull ->
     field_of "clientCount" (body_of (get_meraki_data Demo.devices_down))
     = Some (Json (JNum 0))).
Proof.
  exact (raw_fields_pass_through Demo.devices_down
           (body_of (get_meraki_data Demo.devices_down))
           (trace (get_meraki_data Demo.devices_down)) eq_refl).
Defined.

(** C9.  When [MERAKI_API_KEY] is absent from the environment, or
    empty, the warning is printed at startup and the placeholder is the
    key of [HEADERS], which every request of the client carries. *)
Theorem missing_api_key_placeholder (w : world) :
  getenv w "MERAKI_API_KEY" = None \/ getenv w "MERAKI_API_KEY" = Some "" ->
  snd (startup w)
  = [Printed [Lit "WARNING: MERAKI_API_KEY environment variable not set. Please set it to your Meraki API key."]] /\
  MERAKI_API_KEY w = "YOUR_MERAKI_API_KEY" /\
  HEADERS w = [("X-Cisco-Meraki-API-Key", "YOUR_MERAKI_API_KEY");
               ("Content-Type", "application/json")] /\
  (forall op, headers (request_of w op) = HEADERS w) /\
  sends (fun req => headers req = HEADERS w) (get_meraki_data w).
Proof.
  intros H.
  assert (startup w
          = ("YOUR_MERAKI_API_KEY",
             [Printed [Lit "WARNING: MERAKI_API_KEY environment variable not set. Please set it to your Meraki API key."]]))
    as Hs by (unfold startup; destruct H as [-> | ->]; reflexivity).
  split; [now rewrite Hs | ].
  split; [unfold MERAKI_API_KEY; now rewrite Hs | ].
  split; [unfold HEADERS, MERAKI_API_KEY; now rewrite Hs | ].
  split.
  - intros op. now destruct op.
  - eapply Forall_impl; [ | apply get_meraki_data_sends].
    intros req [Hh _]. exact Hh.
Qed.

Lemma missing_api_key_placeholder_witness :
  snd (startup Demo.unset_key)
  = [Printed [Lit "WARNING: MERAKI_API_KEY environment variable not set. Please set it to your Meraki API key."]] /\
  MERAKI_API_KEY Demo.unset_key = "YOUR_MERAKI_API_KEY" /\
  HEADERS Demo.unset_key = [("X-Cisco-Meraki-API-Key", "YOUR_MERAKI_API_KEY");
                            ("Content-Type", "application/json")] /\
  (forall op, headers (request_of Demo.unset_key op) = HEADERS Demo.unset_key) /\
  sends (fun req => headers req = HEADERS Demo.unset_key)
        (get_meraki_data Demo.unset_key).
Proof.
  apply (missing_api_key_placeholder Demo.unset_key). left. reflexivity.
Defined.

(** C10.  The second check of the organizations never fires: every
    falsy result of the fetch, the sentinel and the empty list alike,
    gets the response of the first check, and in no world does the
    endpoint answer "No Meraki organizations found.". *)
Theorem second_check_unreachable (w : world) :
  (forall organizations t1,
      get_organizations w = (Ok organizations, t1) ->
      truthy organizations = false ->
      get_meraki_data w = (Ok could_not_fetch_organizations, t1)) /\
  (forall organizations,
      outcome (get_organizations w) = Ok organizations ->
      organizations = JNull \/ organizations = JArr [] ->
      outcome (get_meraki_data w) = Ok could_not_fetch_organizations) /\
  outcome (get_meraki_data w) <> Ok no_organizations_found /\
  forall resp, outcome (get_meraki_data w) = Ok resp ->
               field_of "error" (fst resp)
               <> Some (Json (JStr "No Meraki organizations found.")).
Proof.
  assert (forall resp, outcome (get_meraki_data w) = Ok resp ->
                       field_of "error" (fst resp)
                       <> Some (Json (JStr "No Meraki organizations found.")))
    as Hnever.
  { intros resp H.
    destruct (response_cases w resp H) as [-> | [[name ->] | [b ->]]].
    - discriminate.
    - destruct name; discriminate.
    - apply outcome_trace, get_meraki_data_succeeds in H.
      destruct H. discriminate. }
  repeat split.
  - apply falsy_organizations.
  - intros organizations H Hd. apply outcome_trace in H.
    erewrite falsy_organizations; [reflexivity | eassumption | ].
    destruct Hd; now subst.
  - intros H. now apply Hnever in H.
  - exact Hnever.
Qed.

Lemma second_check_unreachable_witness :
  outcome (get_meraki_data Demo.no_organizations)
  = outcome (get_meraki_data Demo.organizations_down) /\
  outcome (get_meraki_data Demo.no_organizations) = Ok could_not_fetch_organizations.
Proof.
  pose proof (proj1 (proj2 (second_check_unreachable Demo.no_organizations))
                (JArr []) eq_refl (or_intror eq_refl)) as H1.
  pose proof (proj1 (proj2 (second_check_unreachable Demo.organizations_down))
                JNull eq_refl (or_introl eq_refl)) as H2.
  split; [now rewrite H1, H2 | exact H1].
Defined.

(** ** More on the four helpers, lines 30-72 *)

Section Helpers.

Variable w : world.

Lemma render_exc (message : text) (e : request_exception) :
  render (message ++ [Exc e]) = None.
Proof.
  induction message as [ | [s | v | e'] message IH]; simpl; try reflexivity.
  now rewrite IH.
Qed.

Lemma fstring_exc (message : text) (e : request_exception) :
  fstring (message ++ [Exc e]) = message ++ [Exc e].
Proof. unfold fstring. now rewrite render_exc. Qed.

(** The message of an operation starts with a literal that names what
    is fetched, and holds the identifier when there is one. *)
Lemma perform_message (op : operation) :
  exists label rest,
    perform w op = guarded_get w (request_of w op) (Lit label :: rest) /\
    mentions "Error fetching" label = true /\
    mentions (noun op) label = true /\
    forall id, identifier op = Some id -> In (fmt id) rest.
Proof.
  destruct op; simpl; do 2 eexists;
    (split; [reflexivity | ]);
    (split; [reflexivity | ]);
    (split; [reflexivity | ]);
    intros id [= <-] || intros id [=]; simpl; auto.
Qed.

Lemma guarded_get_caught (req : request) (message : text) (e : request_exception) :
  attempt_get w req = Caught e ->
  guarded_get w req message
  = (Ok JNull, [Call req; Printed (message ++ [Exc e])]).
Proof. unfold guarded_get. intros ->. now rewrite fstring_exc. Qed.

Lemma raise_for_status_error (status : Z) :
  400 <= status < 600 -> raise_for_status status = Some (HTTPError status).
Proof.
  intros H. unfold raise_for_status.
  replace ((400 <=? status) && (status <? 600)) with true; [reflexivity | ].
  symmetry. apply andb_true_iff. split; [apply Z.leb_le | apply Z.ltb_lt]; lia.
Qed.



End Helpers.

(** X1.  A helper whose request fails in transport, or is answered
    with a status from 400 to 599, returns [None] after one request and
    prints one line: a text that names what was being fetched and holds
    the identifier, followed by the exception. *)
Theorem failure_printed_once (w : world) (op : operation) (e : request_exception) :
  (exists detail,
      upstream w (request_of w op) = Failed detail /\
      e = TransportFailure detail) \/
  (exists status content,
      upstream w (request_of w op) = Reply status content /\
      400 <= status < 600 /\ e = HTTPError status) ->
  exists label rest,
    perform w op
    = (Ok JNull,
       [Call (request_of w op); Printed (Lit label :: rest ++ [Exc e])]) /\
    mentions (noun op) label = true /\
    forall id, identifier op = Some id -> In (fmt id) rest.
Proof.
  intros H.
  destruct (perform_message w op) as (label & rest & -> & _ & Hnoun & Hid).
  exists label, rest. split; [ | split; assumption].
  apply (guarded_get_caught w _ (Lit label :: rest)).
  unfold attempt_get.
  destruct H as [(detail & -> & ->) | (status & content & -> & Hs & ->)].
  - reflexivity.
  - now rewrite raise_for_status_error.
Qed.

Lemma failure_printed_once_witness :
  exists label rest,
    get_networks Demo.networks_down (JStr "549236")
    = (Ok JNull,
       [Call (request_of Demo.networks_down (FetchNetworks (JStr "549236")));
        Printed (Lit label :: rest ++ [Exc (HTTPError 503)])]) /\
    mentions "networks" label = true /\
    forall id, Some (JStr "549236") = Some id -> In (fmt id) rest.
Proof.
  apply (failure_printed_once Demo.networks_down (FetchNetworks (JStr "549236"))).
  right. exists 503, None. split; [reflexivity | split; [lia | reflexivity]].
Defined.







(** ** Runs of the endpoint, step by step *)

Section Runs.

Variable w : world.

Lemma trace_bind {A B} (m : M A) (f : A -> M B) :
  trace (bind m f)
  = trace m ++ match outcome m with
               | Ok a => trace (f a)
               | Raise _ => []
               end.
Proof.
  destruct m as [[a | e] t]; simpl.
  - now destruct (f a).
  - now rewrite app_nil_r.
Qed.

Lemma perform_calls_of (op : operation) (r : result json) (t : list event) :
  perform w op = (r, t) -> calls t = [request_of w op].
Proof.
  intros H. pose proof (perform_calls w op) as Hc. now rewrite H in Hc.
Qed.

Lemma first_field_record (key : string) (members : list (string * json))
      (rest : list json) :
  first_field key (JArr (JObj members :: rest))
  = match lookup key members with
    | Some x => Ok x
    | None => Raise KeyError
    end.
Proof. reflexivity. Qed.

(** A run that stops while selecting the first organization. *)
Lemma run_stops_at_organization (organizations : json) (e : exn)
      (t1 : list event) :
  get_organizations w = (Ok organizations, t1) ->
  truthy organizations = true ->
  first_field "id" organizations = Raise e \/
  (exists id, first_field "id" organizations = Ok id /\
              first_field "name" organizations = Raise e) ->
  get_meraki_data w = (Raise e, t1).
Proof.
  unfold first_field. intros H Ht Hf.
  unfold get_meraki_data, bind, lift, ret.
  rewrite H, Ht. cbn [negb]. cbv beta iota.
  destruct Hf as [-> | (id & -> & ->)]; now rewrite app_nil_r.
Qed.

(** A run that stops while selecting the first network. *)
Lemma run_stops_at_network
      (organizations organization_id organization_name networks : json)
      (e : exn) (t1 t2 : list event) :
  get_organizations w = (Ok organizations, t1) ->
  selects organizations organization_id organization_name ->
  get_networks w organization_id = (Ok networks, t2) ->
  truthy networks = true ->
  first_field "id" networks = Raise e \/
  (exists id, first_field "id" networks = Ok id /\
              first_field "name" networks = Raise e) ->
  get_meraki_data w = (Raise e, t1 ++ t2).
Proof.
  intros H Hsel Hn Ht Hf.
  apply selects_first_field in Hsel as (To & Hid & Hname).
  unfold first_field in *.
  unfold get_meraki_data, bind, lift, ret.
  rewrite H, To. cbn [negb]. cbv beta iota.
  rewrite Hid, Hname, Hn, Ht. cbn [negb]. cbv beta iota.
  destruct Hf as [-> | (id & -> & ->)]; cbn [app]; now rewrite app_nil_r.
Qed.

(** After the four fetches, the run ends as the summary does. *)
Lemma run_after_fetches
      (organizations organization_id organization_name : json)
      (networks network_id network_name devices clients : json)
      (t1 t2 t3 t4 : list event) :
  get_organizations w = (Ok organizations, t1) ->
  selects organizations organization_id organization_name ->
  get_networks w organization_id = (Ok networks, t2) ->
  selects networks network_id network_name ->
  get_network_devices w network_id = (Ok devices, t3) ->
  get_network_clients w network_id 86400 = (Ok clients, t4) ->
  get_meraki_data w
  = (summary organization_name network_name devices clients,
     t1 ++ t2 ++ t3 ++ t4).
Proof.
  intros Horgs Hso Hnets Hsn Hdevs Hclis.
  apply selects_first_field in Hso as (To & Hoid & Honame).
  apply selects_first_field in Hsn as (Tn & Hnid & Hnname).
  unfold first_field in *.
  unfold get_meraki_data, bind, lift, ret, summary, device_fields.
  rewrite Horgs, To. cbn [negb]. cbv beta iota.
  rewrite Hoid, Honame, Hnets, Tn. cbn [negb]. cbv beta iota.
  rewrite Hnid, Hnname, Hdevs. cbv beta iota. rewrite Hclis.
  destruct (if truthy devices
            then (ds <- iterate devices ;;
                  comprehension (fun device => get_method device "name" (JStr "N/A")) ds)%result
            else Ok []) as [names | e1];
    cbn [ResultMonad.bind app]; [ | now rewrite !app_nil_r].
  destruct (if truthy devices
            then (ds <- iterate devices ;;
                  comprehension (fun device => get_method device "status" (JStr "N/A")) ds)%result
            else Ok []) as [statuses | e2];
    cbn [ResultMonad.bind app]; [ | now rewrite !app_nil_r].
  destruct (if truthy clients then len clients else Ok 0) as [cc | e3];
    cbn [ResultMonad.bind app]; [ | now rewrite !app_nil_r].
  destruct (if truthy devices
            then (ds <- iterate devices ;; count_device_types ds [])%result
            else Ok []) as [dtc | e4];
    cbn [ResultMonad.bind app]; [ | now rewrite !app_nil_r].
  destruct (if truthy devices then len devices else Ok 0) as [dc | e5];
    cbn [ResultMonad.bind app jsonify]; now rewrite !app_nil_r.
Qed.

Lemma comprehension_non_record (key : string) (default : json) (ds : list json) :
  existsb (fun d => negb (is_record d)) ds = true ->
  comprehension (fun device => get_method device key default) ds
  = Raise AttributeError.
Proof.
  induction ds as [ | d ds IH]; simpl; [discriminate | ].
  destruct d as [ | b | n | s | items | members]; simpl; try reflexivity.
  intros H. rewrite (IH H). now destruct (lookup key members).
Qed.

Lemma count_device_types_unhashable (ds ms : list json) (d : counts) :
  device_models ds = Ok ms -> forallb hashable ms = false ->
  count_device_types ds d = Raise TypeError.
Proof.
  unfold device_models. revert ms d.
  induction ds as [ | device ds IH]; simpl; intros ms d Hms Hh.
  - injection Hms as <-. discriminate.
  - unfold model_of in Hms at 1.
    destruct (get_method device "model" (JStr "Unknown")) as [m | ];
      simpl in *; [ | discriminate].
    destruct (comprehension model_of ds) as [ms' | ]; simpl in Hms; [ | discriminate].
    injection Hms as <-. simpl in Hh.
    destruct (hashable m); [ | reflexivity].
    now apply (IH ms').
Qed.

Lemma len_raises (v : json) (e : exn) : len v = Raise e -> e = TypeError.
Proof. destruct v; simpl; congruence. Qed.

End Runs.

(** ** Which entries a snapshot is built from, and which requests are sent *)

(** X5.  A snapshot comes from a non-empty list of organizations and a
    non-empty list of networks whose first entries are records with
    [id] and [name]: the networks are those fetched for the [id] of the
    first organization, and [organizationName] and [networkName] are
    the names of the two first entries. *)
Theorem snapshot_uses_first_entries (w : world) (b : body) (t : list event) :
  get_meraki_data w = (Ok (b, 200), t) ->
  exists organizations organization_id organization_name
         networks network_id network_name,
    outcome (get_organizations w) = Ok organizations /\
    selects organizations organization_id organization_name /\
    outcome (get_networks w organization_id) = Ok networks /\
    selects networks network_id network_name /\
    field_of "organizationName" b = Some (Json organization_name) /\
    field_of "networkName" b = Some (Json network_name).
Proof.
  intros H. apply get_meraki_data_succeeds in H.
  destruct H as [organizations organization_id organization_name
                 networks network_id network_name devices clients
                 device_names device_statuses client_count deviceCount
                 device_type_counts t1 t2 t3 t4
                 Horgs To Hoid Honame Hnets Tn Hnid Hnname _ _ _ _ _ _ _].
  exists organizations, organization_id, organization_name,
    networks, network_id, network_name.
  split; [now rewrite Horgs | ].
  split; [now apply selects_first_field | ].
  split; [now rewrite Hnets | ].
  split; [now apply selects_first_field | ].
  split; reflexivity.
Qed.

Lemma snapshot_uses_first_entries_witness :
  exists organizations organization_id organization_name
         networks network_id network_name,
    outcome (get_organizations Demo.healthy) = Ok organizations /\
    selects organizations organization_id organization_name /\
    outcome (get_networks Demo.healthy organization_id) = Ok networks /\
    selects networks network_id network_name /\
    field_of "organizationName" (body_of (get_meraki_data Demo.healthy))
    = Some (Json organization_name) /\
    field_of "networkName" (body_of (get_meraki_data Demo.healthy))
    = Some (Json network_name).
Proof.
  exact (snapshot_uses_first_entries Demo.healthy
           (body_of (get_meraki_data Demo.healthy))
           (trace (get_meraki_data Demo.healthy)) eq_refl).
Defined.

(** X6.  A run that ends in a snapshot sends exactly four requests, in
    the order organizations, networks, devices, clients, the last two
    for the [id] of the first network. *)
Theorem snapshot_calls_in_order (w : world) (b : body) (t : list event) :
  get_meraki_data w = (Ok (b, 200), t) ->
  exists organizations organization_id organization_name
         networks network_id network_name,
    outcome (get_organizations w) = Ok organizations /\
    selects organizations organization_id organization_name /\
    outcome (get_networks w organization_id) = Ok networks /\
    selects networks network_id network_name /\
    calls t = full_run w organization_id network_id.
Proof.
  intros H. apply get_meraki_data_succeeds in H.
  destruct H as [organizations organization_id organization_name
                 networks network_id network_name devices clients
                 device_names device_statuses client_count deviceCount
                 device_type_counts t1 t2 t3 t4
                 Horgs To Hoid Honame Hnets Tn Hnid Hnname Hdevs Hclis
                 _ _ _ _ _].
  exists organizations, organization_id, organization_name,
    networks, network_id, network_name.
  split; [now rewrite Horgs | ].
  split; [now apply selects_first_field | ].
  split; [now rewrite Hnets | ].
  split; [now apply selects_first_field | ].
  rewrite !calls_app.
  rewrite (perform_calls_of w FetchOrganizations _ _ Horgs).
  rewrite (perform_calls_of w (FetchNetworks organization_id) _ _ Hnets).
  rewrite (perform_calls_of w (FetchDevices network_id) _ _ Hdevs).
  rewrite (perform_calls_of w (FetchClients network_id 86400) _ _ Hclis).
  reflexivity.
Qed.

Lemma snapshot_calls_in_order_witness :
  exists organizations organization_id organization_name
         networks network_id network_name,
    outcome (get_organizations Demo.healthy) = Ok organizations /\
    selects organizations organization_id organization_name /\
    outcome (get_networks Demo.healthy organization_id) = Ok networks /\
    selects networks network_id network_name /\
    calls (trace (get_meraki_data Demo.healthy))
    = full_run Demo.healthy organization_id network_id.
Proof.
  exact (snapshot_calls_in_order Demo.healthy
           (body_of (get_meraki_data Demo.healthy))
           (trace (get_meraki_data Demo.healthy)) eq_refl).
Defined.

(** X7.  When the networks fetch comes back with [None] or an empty
    list, the run has sent the organizations and the networks request
    and nothing else: no devices or clients are fetched. *)
Theorem no_networks_two_requests
  (w : world) (organizations organization_id organization_name networks : json)
  (t1 t2 : list event) :
  get_organizations w = (Ok organizations, t1) ->
  selects organizations organization_id organization_name ->
  get_networks w organization_id = (Ok networks, t2) ->
  networks = JNull \/ networks = JArr [] ->
  calls (trace (get_meraki_data w))
  = [request_of w FetchOrganizations;
     request_of w (FetchNetworks organization_id)].
Proof.
  intros H Hsel Hn Hd.
  apply selects_first_field in Hsel as (Ht & Hid & Hname).
  assert (truthy networks = false) as Hf by (destruct Hd; now subst).
  rewrite (falsy_networks w _ _ _ _ _ _ H Ht Hid Hname Hn Hf).
  cbn [trace snd]. rewrite calls_app.
  rewrite (perform_calls_of w FetchOrganizations _ _ H).
  now rewrite (perform_calls_of w (FetchNetworks organization_id) _ _ Hn).
Qed.

Lemma no_networks_two_requests_witness :
  calls (trace (get_meraki_data Demo.networks_down))
  = [request_of Demo.networks_down FetchOrganizations;
     request_of Demo.networks_down (FetchNetworks (JStr "549236"))].
Proof.
  refine (no_networks_two_requests Demo.networks_down
            (JArr [Demo.organization]) (JStr "549236") (JStr "DevNet Sandbox")
            JNull _ _ eq_refl _ eq_refl (or_introl eq_refl)).
  exists [("id", JStr "549236"); ("name", JStr "DevNet Sandbox")], [].
  repeat split.
Defined.

(** X8.  In every world, whatever the upstream answers and however the
    run ends, the requests of the endpoint are an initial part of the
    four requests of a complete run, one attempt each; the first is
    always the organizations request. *)
Theorem requests_in_order (w : world) :
  exists organization_id network_id,
    prefix_of (calls (trace (get_meraki_data w)))
              (full_run w organization_id network_id) /\
    hd_error (calls (trace (get_meraki_data w)))
    = Some (request_of w FetchOrganizations).
Proof.
  assert (forall l organization_id network_id,
             prefix_of l [request_of w (FetchNetworks organization_id);
                          request_of w (FetchDevices network_id);
                          request_of w (FetchClients network_id 86400)] ->
             prefix_of (calls (trace (get_organizations w)) ++ l)
                       (full_run w organization_id network_id) /\
             hd_error (calls (trace (get_organizations w)) ++ l)
             = Some (request_of w FetchOrganizations)) as Hfirst.
  { intros l oid nid [rest Hl].
    change (get_organizations w) with (perform w FetchOrganizations).
    rewrite perform_calls. split; [ | reflexivity].
    exists rest. unfold full_run. now rewrite Hl. }
  unfold get_meraki_data. rewrite trace_bind, calls_app.
  destruct (outcome (get_organizations w)) as [organizations | e].
  2: { exists JNull, JNull. apply Hfirst. eexists. reflexivity. }
  destruct (negb (truthy organizations)).
  { exists JNull, JNull. apply Hfirst. eexists. reflexivity. }
  rewrite trace_bind. cbn [lift trace outcome fst snd app].
  destruct (ResultMonad.bind (subscript organizations (JNum 0))
              (fun o => subscript o (JStr "id"))) as [organization_id | e].
  2: { exists JNull, JNull. apply Hfirst. eexists. reflexivity. }
  rewrite trace_bind. cbn [lift trace outcome fst snd app].
  destruct (ResultMonad.bind (subscript organizations (JNum 0))
              (fun o => subscript o (JStr "name"))) as [organization_name | e].
  2: { exists JNull, JNull. apply Hfirst. eexists. reflexivity. }
  rewrite trace_bind, calls_app.
  change (get_networks w organization_id)
    with (perform w (FetchNetworks organization_id)).
  rewrite perform_calls.
  destruct (outcome (perform w (FetchNetworks organization_id))) as [networks | e].
  2: { exists organization_id, JNull. apply Hfirst. eexists. reflexivity. }
  destruct (negb (truthy networks)).
  { exists organization_id, JNull. apply Hfirst. eexists. reflexivity. }
  rewrite trace_bind. cbn [lift trace outcome fst snd app].
  destruct (ResultMonad.bind (subscript networks (JNum 0))
              (fun n => subscript n (JStr "id"))) as [network_id | e].
  2: { exists organization_id, JNull. apply Hfirst. eexists. reflexivity. }
  rewrite trace_bind. cbn [lift trace outcome fst snd app].
  destruct (ResultMonad.bind (subscript networks (JNum 0))
              (fun n => subscript n (JStr "name"))) as [network_name | e].
  2: { exists organization_id, JNull. apply Hfirst. eexists. reflexivity. }
  exists organization_id, network_id. apply Hfirst.
  rewrite trace_bind, calls_app.
  change (get_network_devices w network_id)
    with (perform w (FetchDevices network_id)).
  rewrite perform_calls.
  destruct (outcome (perform w (FetchDevices network_id))) as [devices | e].
  2: { eexists. reflexivity. }
  rewrite trace_bind, calls_app.
  change (get_network_clients w network_id 86400)
    with (perform w (FetchClients network_id 86400)).
  rewrite perform_calls.
  destruct (outcome (perform w (FetchClients network_id 86400))) as [clients | e].
  2: { eexists. reflexivity. }
  assert (forall (A : Type) (r : result A) (f : A -> M response),
             (forall a, calls (trace (f a)) = []) ->
             calls (trace (bind (lift r) f)) = []) as Hquiet.
  { intros A r f Hf. rewrite trace_bind. cbn [lift trace outcome fst snd app].
    destruct r; [apply Hf | reflexivity]. }
  rewrite Hquiet.
  - exists []. reflexivity.
  - intros device_names. apply Hquiet.
    intros device_statuses. apply Hquiet.
    intros client_count. apply Hquiet.
    intros device_type_counts. apply Hquiet.
    intros deviceCount. reflexivity.
Qed.

(** ** Runs that end in an exception *)

(** X9.  When the first organization is a record without [id], or
    without [name], the endpoint raises [KeyError]; both fields are
    read before the networks are fetched, so only the organizations
    request has been sent. *)
Theorem organization_without_field_raises
  (w : world) (members : list (string * json)) (rest : list json)
  (t1 : list event) :
  get_organizations w = (Ok (JArr (JObj members :: rest)), t1) ->
  lookup "id" members = None \/ lookup "name" members = None ->
  get_meraki_data w = (Raise KeyError, t1) /\
  calls t1 = [request_of w FetchOrganizations].
Proof.
  intros H Hmissing. split.
  - apply (run_stops_at_organization w _ _ _ H); [reflexivity | ].
    rewrite !first_field_record.
    destruct (lookup "id" members) as [id | ]; [right | now left].
    exists id. split; [reflexivity | ].
    destruct Hmissing as [[=] | ->]. reflexivity.
  - exact (perform_calls_of w FetchOrganizations _ _ H).
Qed.

Lemma organization_without_field_raises_witness :
  get_meraki_data Cases.organization_without_id
  = (Raise KeyError, trace (get_organizations Cases.organization_without_id)) /\
  calls (trace (get_organizations Cases.organization_without_id))
  = [request_of Cases.organization_without_id FetchOrganizations].
Proof.
  apply (organization_without_field_raises Cases.organization_without_id
           [("name", JStr "DevNet Sandbox")] []);
    [reflexivity | left; reflexivity].
Defined.

(** X10.  When the first network is a record without [id], or without
    [name], the endpoint raises [KeyError] after the organizations and
    the networks request; no devices or clients are fetched. *)
Theorem network_without_field_raises
  (w : world) (organizations organization_id organization_name : json)
  (members : list (string * json)) (rest : list json) (t1 t2 : list event) :
  get_organizations w = (Ok organizations, t1) ->
  selects organizations organization_id organization_name ->
  get_networks w organization_id = (Ok (JArr (JObj members :: rest)), t2) ->
  lookup "id" members = None \/ lookup "name" members = None ->
  get_meraki_data w = (Raise KeyError, t1 ++ t2) /\
  calls (t1 ++ t2) = [request_of w FetchOrganizations;
                      request_of w (FetchNetworks organization_id)].
Proof.
  intros H Hsel Hn Hmissing. split.
  - apply (run_stops_at_network w _ _ _ _ _ _ _ H Hsel Hn); [reflexivity | ].
    rewrite !first_field_record.
    destruct (lookup "id" members) as [id | ]; [right | now left].
    exists id. split; [reflexivity | ].
    destruct Hmissing as [[=] | ->]. reflexivity.
  - rewrite calls_app.
    rewrite (perform_calls_of w FetchOrganizations _ _ H).
    now rewrite (perform_calls_of w (FetchNetworks organization_id) _ _ Hn).
Qed.

Lemma network_without_field_raises_witness :
  get_meraki_data Cases.network_without_name
  = (Raise KeyError,
     trace (get_organizations Cases.network_without_name)
     ++ trace (get_networks Cases.network_without_name (JStr "549236"))) /\
  calls (trace (get_organizations Cases.network_without_name)
         ++ trace (get_networks Cases.network_without_name (JStr "549236")))
  = [request_of Cases.network_without_name FetchOrganizations;
     request_of Cases.network_without_name (FetchNetworks (JStr "549236"))].
Proof.
  refine (network_without_field_raises Cases.network_without_name
            (JArr [Demo.organization]) (JStr "549236") (JStr "DevNet Sandbox")
            [("id", JStr "L_646829496481105433")] [] _ _
            eq_refl _ eq_refl (or_intror eq_refl)).
  exists [("id", JStr "549236"); ("name", JStr "DevNet Sandbox")], [].
  repeat split.
Defined.

(** X11.  When the organizations fetch returns a truthy value that is
    not a list, the endpoint raises before any other request:
    [KeyError] for a non-empty object, [TypeError] for a non-empty
    string, a non-zero number or [true]. *)
Theorem organizations_not_a_list_raises
  (w : world) (organizations : json) (t1 : list event) :
  get_organizations w = (Ok organizations, t1) ->
  truthy organizations = true ->
  (forall items, organizations <> JArr items) ->
  get_meraki_data w
  = (Raise (if is_record organizations then KeyError else TypeError), t1).
Proof.
  intros H Ht Hshape.
  apply (run_stops_at_organization w _ _ _ H Ht).
  destruct organizations as [ | b | n | s | items | members]; simpl;
    try (now left).
  - destruct s as [ | c s]; [discriminate | now left].
  - now destruct (Hshape items).
Qed.

Lemma organizations_not_a_list_raises_witness :
  get_meraki_data Cases.organizations_object
  = (Raise KeyError, trace (get_organizations Cases.organizations_object)).
Proof.
  apply (organizations_not_a_list_raises Cases.organizations_object
           (JObj [("errors", JArr [JStr "Invalid API key"])]));
    [reflexivity | reflexivity | discriminate].
Defined.

(** X12.  When the fetched list of devices holds an entry that is not a
    record, the endpoint raises [AttributeError] after its four
    requests, whatever the clients are. *)
Theorem device_not_a_record_raises
  (w : world)
  (organizations organization_id organization_name : json)
  (networks network_id network_name clients : json)
  (devices : list json) (t1 t2 t3 t4 : list event) :
  get_organizations w = (Ok organizations, t1) ->
  selects organizations organization_id organization_name ->
  get_networks w organization_id = (Ok networks, t2) ->
  selects networks network_id network_name ->
  get_network_devices w network_id = (Ok (JArr devices), t3) ->
  get_network_clients w network_id 86400 = (Ok clients, t4) ->
  existsb (fun device => negb (is_record device)) devices = true ->
  get_meraki_data w = (Raise AttributeError, t1 ++ t2 ++ t3 ++ t4).
Proof.
  intros Horgs Hso Hnets Hsn Hdevs Hclis Hbad.
  rewrite (run_after_fetches w _ _ _ _ _ _ _ _ _ _ _ _
             Horgs Hso Hnets Hsn Hdevs Hclis).
  f_equal. unfold summary, device_fields.
  assert (truthy (JArr devices) = true) as ->
    by (destruct devices; [discriminate | reflexivity]).
  cbn [iterate ResultMonad.bind].
  now rewrite (comprehension_non_record _ _ _ Hbad).
Qed.

Lemma device_not_a_record_raises_witness :
  get_meraki_data Cases.device_is_a_string
  = (Raise AttributeError,
     trace (get_organizations Cases.device_is_a_string)
     ++ trace (get_networks Cases.device_is_a_string (JStr "549236"))
     ++ trace (get_network_devices Cases.device_is_a_string
                 (JStr "L_646829496481105433"))
     ++ trace (get_network_clients Cases.device_is_a_string
                 (JStr "L_646829496481105433") 86400)).
Proof.
  refine (device_not_a_record_raises Cases.device_is_a_string
            (JArr [Demo.organization]) (JStr "549236") (JStr "DevNet Sandbox")
            (JArr [Demo.network]) (JStr "L_646829496481105433") (JStr "DNSMB1")
            (JArr Demo.clients)
            [JObj [("model", JStr "MR33")]; JStr "MS220"] _ _ _ _
            eq_refl _ eq_refl _ eq_refl eq_refl eq_refl).
  - exists [("id", JStr "549236"); ("name", JStr "DevNet Sandbox")], [].
    repeat split.
  - exists [("id", JStr "L_646829496481105433"); ("name", JStr "DNSMB1")], [].
    repeat split.
Defined.

(** X13.  When every fetched device is a record but the model of one
    is a list or an object, the endpoint raises [TypeError] after its
    four requests, whatever the clients are. *)
Theorem unhashable_model_raises
  (w : world)
  (organizations organization_id organization_name : json)
  (networks network_id network_name clients : json)
  (devices models : list json) (t1 t2 t3 t4 : list event) :
  get_organizations w = (Ok organizations, t1) ->
  selects organizations organization_id organization_name ->
  get_networks w organization_id = (Ok networks, t2) ->
  selects networks network_id network_name ->
  get_network_devices w network_id = (Ok (JArr devices), t3) ->
  get_network_clients w network_id 86400 = (Ok clients, t4) ->
  device_models devices = Ok models ->
  forallb hashable models = false ->
  get_meraki_data w = (Raise TypeError, t1 ++ t2 ++ t3 ++ t4).
Proof.
  intros Horgs Hso Hnets Hsn Hdevs Hclis Hms Hh.
  rewrite (run_after_fetches w _ _ _ _ _ _ _ _ _ _ _ _
             Horgs Hso Hnets Hsn Hdevs Hclis).
  f_equal. unfold summary.
  destruct (device_fields_records devices models "name" Hms) as [names ->].
  destruct (device_fields_records devices models "status" Hms) as [statuses ->].
  cbn [ResultMonad.bind].
  destruct (if truthy clients then len clients else Ok 0) as [cc | e] eqn:Hcc.
  - cbn [ResultMonad.bind].
    assert (truthy (JArr devices) = true) as ->.
    { destruct devices; [ | reflexivity].
      injection Hms as <-. discriminate. }
    cbn [iterate ResultMonad.bind].
    now rewrite (count_device_types_unhashable _ _ _ Hms Hh).
  - cbn [ResultMonad.bind]. f_equal.
    destruct (truthy clients); [ | discriminate].
    now apply len_raises in Hcc.
Qed.

Lemma unhashable_model_raises_witness :
  get_meraki_data Cases.model_is_a_list
  = (Raise TypeError,
     trace (get_organizations Cases.model_is_a_list)
     ++ trace (get_networks Cases.model_is_a_list (JStr "549236"))
     ++ trace (get_network_devices Cases.model_is_a_list
                 (JStr "L_646829496481105433"))
     ++ trace (get_network_clients Cases.model_is_a_list
                 (JStr "L_646829496481105433") 86400)).
Proof.
  refine (unhashable_model_raises Cases.model_is_a_list
            (JArr [Demo.organization]) (JStr "549236") (JStr "DevNet Sandbox")
            (JArr [Demo.network]) (JStr "L_646829496481105433") (JStr "DNSMB1")
            (JArr Demo.clients)
            [JObj [("model", JArr [JStr "MR33"])]] [JArr [JStr "MR33"]]
            _ _ _ _
            eq_refl _ eq_refl _ eq_refl eq_refl eq_refl eq_refl).
  - exists [("id", JStr "549236"); ("name", JStr "DevNet Sandbox")], [].
    repeat split.
  - exists [("id", JStr "L_646829496481105433"); ("name", JStr "DNSMB1")], [].
    repeat split.
Defined.

(** ** More on the tally *)

Section TallyFacts.

Lemma first_seen_incl (k : json) (ms : list json) :
  In k (first_seen ms) -> In k ms.
Proof.
  induction ms as [ | m ms IH]; simpl; [auto | ].
  intros [-> | H]; [now left | right].
  apply filter_In in H. now apply IH.
Qed.

Lemma first_seen_covers (m : json) (ms : list json) :
  forallb hashable ms = true -> In m ms ->
  existsb (key_eqb m) (first_seen ms) = true.
Proof.
  induction ms as [ | k ms IH]; simpl; [intros _ [] | ].
  intros Hh Hin. apply andb_true_iff in Hh as [Hk Hh].
  destruct (key_eqb m k) eqn:E; [reflexivity | simpl].
  destruct Hin as [-> | Hin]; [now rewrite key_eqb_refl in E | ].
  specialize (IH Hh Hin). apply existsb_exists in IH as (x & Hx & Hmx).
  apply existsb_exists. exists x. split; [ | assumption].
  apply filter_In. split; [assumption | ].
  apply negb_true_iff.
  destruct (key_eqb x k) eqn:Exk; [ | reflexivity].
  rewrite (key_eqb_compat_r _ _ m Exk) in Hmx. congruence.
Qed.

Lemma occurrences_positive (k : json) (ms : list json) :
  hashable k = true -> In k ms -> 1 <= occurrences k ms.
Proof.
  intros Hk Hin. unfold occurrences.
  assert (In k (filter (fun m => key_eqb m k) ms)) as H
    by (apply filter_In; split; [assumption | now apply key_eqb_refl]).
  destruct (filter (fun m => key_eqb m k) ms); [destruct H | ].
  cbn [List.length]. lia.
Qed.

Lemma first_seen_length (ms : list json) :
  (List.length (first_seen ms) <= List.length ms)%nat.
Proof.
  induction ms as [ | m ms IH]; simpl; [lia | ].
  pose proof (filter_length_le (fun k' => negb (key_eqb k' m)) (first_seen ms)).
  lia.
Qed.

Lemma device_models_in (devices ms : list json) (device : json) :
  device_models devices = Ok ms -> In device devices ->
  exists m, model_of device = Ok m /\ In m ms.
Proof.
  unfold device_models. revert ms.
  induction devices as [ | d devices IH]; simpl; intros ms Hms; [intros [] | ].
  destruct (model_of d) as [m | ] eqn:Hm; simpl in Hms; [ | discriminate].
  destruct (comprehension model_of devices) as [ms' | ]; simpl in Hms;
    [ | discriminate].
  injection Hms as <-. intros [<- | Hin].
  - exists m. split; [assumption | now left].
  - destruct (IH ms' eq_refl Hin) as (m' & Hm' & Hin'). exists m'.
    split; [assumption | now right].
Qed.

End TallyFacts.

(** X14.  In every snapshot no type is listed twice in [deviceTypes],
    every count in [deviceTypeCounts] is at least 1, the model of every
    device is among the types, and there are no more types than
    devices. *)
Theorem device_types_distinct_positive (w : world) (b : body) (t : list event) :
  get_meraki_data w = (Ok (b, 200), t) ->
  exists devices types tallies,
    field_of "devices" b = Some (Json devices) /\
    field_of "deviceTypes" b = Some (Json (JArr types)) /\
    field_of "deviceTypeCounts" b = Some (Json (JArr (map JNum tallies))) /\
    distinct types = true /\
    Forall (fun c => 1 <= c) tallies /\
    (forall device, In device (items_of devices) ->
       exists m, model_of device = Ok m /\ existsb (key_eqb m) types = true) /\
    (List.length types <= List.length (items_of devices))%nat.
Proof.
  intros H.
  destruct (snapshot_tally _ _ _ H) as (devices & ms & Hd & Hms & Hh & Ht & Hc & _).
  exists devices, (first_seen ms), (map (fun k => occurrences k ms) (first_seen ms)).
  do 3 (split; [assumption | ]).
  split; [apply first_seen_distinct | ].
  split; [ | split].
  - apply Forall_map, Forall_forall. intros k Hk.
    apply occurrences_positive; [ | now apply first_seen_incl].
    apply first_seen_incl in Hk.
    rewrite forallb_forall in Hh. now apply Hh.
  - intros device Hin.
    destruct (device_models_in _ _ _ Hms Hin) as (m & Hm & Hin').
    exists m. split; [assumption | now apply first_seen_covers].
  - rewrite <- (device_models_length _ _ Hms). apply first_seen_length.
Qed.

Lemma device_types_distinct_positive_witness :
  exists devices types tallies,
    field_of "devices" (body_of (get_meraki_data Demo.healthy))
    = Some (Json devices) /\
    field_of "deviceTypes" (body_of (get_meraki_data Demo.healthy))
    = Some (Json (JArr types)) /\
    field_of "deviceTypeCounts" (body_of (get_meraki_data Demo.healthy))
    = Some (Json (JArr (map JNum tallies))) /\
    distinct types = true /\
    Forall (fun c => 1 <= c) tallies /\
    (forall device, In device (items_of devices) ->
       exists m, model_of device = Ok m /\ existsb (key_eqb m) types = true) /\
    (List.length types <= List.length (items_of devices))%nat.
Proof.
  exact (device_types_distinct_positive Demo.healthy
           (body_of (get_meraki_data Demo.healthy))
           (trace (get_meraki_data Demo.healthy)) eq_refl).
Defined.

(** X15.  When both fetches for the selected network come back falsy
    ([None], an empty list, or any other empty value), the endpoint
    still answers 200: both counts are 0, both arrays are empty, and
    the two values are passed on as they came. *)
Theorem empty_fetches_give_zero_snapshot
  (w : world)
  (organizations organization_id organization_name : json)
  (networks network_id network_name devices clients : json)
  (t1 t2 t3 t4 : list event) :
  get_organizations w = (Ok organizations, t1) ->
  selects organizations organization_id organization_name ->
  get_networks w organization_id = (Ok networks, t2) ->
  selects networks network_id network_name ->
  get_network_devices w network_id = (Ok devices, t3) ->
  get_network_clients w network_id 86400 = (Ok clients, t4) ->
  truthy devices = false ->
  truthy clients = false ->
  get_meraki_data w
  = (Ok ([("organizationName", Json organization_name);
          ("networkName", Json network_name);
          ("deviceCount", Json (JNum 0));
          ("clientCount", Json (JNum 0));
          ("deviceTypes", Json (JArr []));
          ("deviceTypeCounts", Json (JArr []));
          ("devices", Json devices);
          ("clients", Json clients)], 200),
     t1 ++ t2 ++ t3 ++ t4).
Proof.
  intros Horgs Hso Hnets Hsn Hdevs Hclis Hd Hc.
  rewrite (run_after_fetches w _ _ _ _ _ _ _ _ _ _ _ _
             Horgs Hso Hnets Hsn Hdevs Hclis).
  unfold summary, device_fields. now rewrite Hd, Hc.
Qed.

Lemma empty_fetches_give_zero_snapshot_witness :
  get_meraki_data Cases.empty_network
  = (Ok ([("organizationName", Json (JStr "DevNet Sandbox"));
          ("networkName", Json (JStr "DNSMB1"));
          ("deviceCount", Json (JNum 0));
          ("clientCount", Json (JNum 0));
          ("deviceTypes", Json (JArr []));
          ("deviceTypeCounts", Json (JArr []));
          ("devices", Json (JArr []));
          ("clients", Json (JArr []))], 200),
     trace (get_organizations Cases.empty_network)
     ++ trace (get_networks Cases.empty_network (JStr "549236"))
     ++ trace (get_network_devices Cases.empty_network
                 (JStr "L_646829496481105433"))
     ++ trace (get_network_clients Cases.empty_network
                 (JStr "L_646829496481105433") 86400)).
Proof.
  refine (empty_fetches_give_zero_snapshot Cases.empty_network
            (JArr [Demo.organization]) (JStr "549236") (JStr "DevNet Sandbox")
            (JArr [Demo.network]) (JStr "L_646829496481105433") (JStr "DNSMB1")
            (JArr []) (JArr []) _ _ _ _
            eq_refl _ eq_refl _ eq_refl eq_refl eq_refl eq_refl).
  - exists [("id", JStr "549236"); ("name", JStr "DevNet Sandbox")], [].
    repeat split.
  - exists [("id", JStr "L_646829496481105433"); ("name", JStr "DNSMB1")], [].
    repeat split.
Defined.

(** X16.  The loop of lines 119-121, started from any dictionary:
    when it goes through, the keys it started with stay first and in
    their order, the count found for a key grows by the number of
    devices of that model, and the counts together grow by the number
    of devices. *)
Theorem count_device_types_accumulates (devices : list json) (d d' : counts) :
  count_device_types devices d = Ok d' ->
  prefix_of (keys d) (keys d') /\
  (forall k, counts_get k d' 0 = counts_get k d 0 + count_model k devices) /\
  sum (values d') = sum (values d) + Z.of_nat (List.length devices).
Proof.
  intros H. apply count_device_types_tally in H as (ms & Hms & _ & ->).
  split; [ | split].
  - rewrite tally_keys. eexists. reflexivity.
  - intros k. rewrite tally_get. f_equal. symmetry.
    now apply count_model_occurrences.
  - rewrite tally_sum. now rewrite (device_models_length _ _ Hms).
Qed.

Lemma count_device_types_accumulates_witness :
  prefix_of [JStr "MS220"; JStr "MX64"]
            (keys [(JStr "MS220", 5); (JStr "MX64", 1); (JStr "MR33", 2)]) /\
  (forall k,
      counts_get k [(JStr "MS220", 5); (JStr "MX64", 1); (JStr "MR33", 2)] 0
      = counts_get k [(JStr "MS220", 4); (JStr "MX64", 1)] 0
        + count_model k Demo.devices) /\
  sum (values [(JStr "MS220", 5); (JStr "MX64", 1); (JStr "MR33", 2)])
  = sum (values [(JStr "MS220", 4); (JStr "MX64", 1)])
    + Z.of_nat (List.length Demo.devices).
Proof.
  exact (count_device_types_accumulates Demo.devices
           [(JStr "MS220", 4); (JStr "MX64", 1)]
           [(JStr "MS220", 5); (JStr "MX64", 1); (JStr "MR33", 2)] eq_refl).
Defined.

(** ** The responses, read backwards *)

(** X17.  A response of the endpoint has status 200, 404 or 500.  With
    200 the body has no [error] field; with 404 or 500 the body is the
    [error] field alone. *)
Theorem status_and_error_field (w : world) (b : body) (status : Z) :
  outcome (get_meraki_data w) = Ok (b, status) ->
  (status = 200 /\ field_of "error" b = None) \/
  ((status = 404 \/ status = 500) /\ exists message, b = [("error", message)]).
Proof.
  intros H.
  destruct (response_cases w _ H) as [E | [[name E] | [b' E]]].
  - injection E as -> ->. right. split; [now right | eexists; reflexivity].
  - injection E as -> ->. right. split; [now left | eexists; reflexivity].
  - injection E as <- ->. left. split; [reflexivity | ].
    apply outcome_trace, get_meraki_data_succeeds in H. now destruct H.
Qed.

Lemma status_and_error_field_witness :
  (404 = 200 /\
   field_of "error" (body_of (get_meraki_data Demo.no_networks)) = None) \/
  ((404 = 404 \/ 404 = 500) /\
   exists message,
     body_of (get_meraki_data Demo.no_networks) = [("error", message)]).
Proof.
  exact (status_and_error_field Demo.no_networks
           (body_of (get_meraki_data Demo.no_networks)) 404 eq_refl).
Defined.

(** X18.  The two error responses have one cause each.  Status 500
    means that the organizations fetch returned a falsy value, and
    status 404 that the first organization was selected and the
    networks fetch for its [id] returned a falsy value; the body then
    carries the name of that organization. *)
Theorem error_status_cause (w : world) (b : body) (status : Z) :
  outcome (get_meraki_data w) = Ok (b, status) ->
  (status = 500 ->
   exists organizations,
     outcome (get_organizations w) = Ok organizations /\
     truthy organizations = false) /\
  (status = 404 ->
   exists organizations organization_id organization_name networks,
     outcome (get_organizations w) = Ok organizations /\
     selects organizations organization_id organization_name /\
     outcome (get_networks w organization_id) = Ok networks /\
     truthy networks = false /\
     (b, status) = no_networks_found organization_name).
Proof.
  intros H. apply outcome_trace in H. revert H.
  generalize (trace (get_meraki_data w)) as t.
  unfold get_meraki_data. intros t H.
  apply bind_ok in H as (organizations & t1 & ? & Horgs & H & ->).
  destruct (truthy organizations) eqn:To; cbn [negb] in H.
  2: { apply ret_ok in H as [[= <- <-] _]. split; [ | discriminate].
       intros _. exists organizations. now rewrite Horgs. }
  apply bind_ok in H as (organization_id & ? & ? & Hoid & H & ->).
  apply lift_ok in Hoid as [Hoid ->].
  apply bind_ok in H as (organization_name & ? & ? & Honame & H & ->).
  apply lift_ok in Honame as [Honame ->].
  apply bind_ok in H as (networks & t2 & ? & Hnets & H & ->).
  destruct (truthy networks) eqn:Tn; cbn [negb] in H.
  2: { apply ret_ok in H as [[= <- <-] _]. split; [discriminate | ].
       intros _. exists organizations, organization_id, organization_name, networks.
       split; [now rewrite Horgs | ].
       split; [now apply selects_first_field | ].
       split; [now rewrite Hnets | ].
       split; [assumption | reflexivity]. }
  repeat (apply bind_ok in H as (? & ? & ? & _ & H & ->)).
  apply ret_ok in H as [[= <- <-] _]. split; discriminate.
Qed.

Lemma error_status_cause_witness :
  exists organizations,
    outcome (get_organizations Demo.no_organizations) = Ok organizations /\
    truthy organizations = false.
Proof.
  exact (proj1 (error_status_cause Demo.no_organizations
                  (body_of (get_meraki_data Demo.no_organizations)) 500 eq_refl)
           eq_refl).
Defined.
